(** * AndorAMH: the Andor AMH200-FOS shutter adapter

    A shallow embedding of [AndorAMH.cpp] / [AndorAMH.h] and the properties
    of its command cycle, busy timer and property handlers.

    The adapter is a C++ class whose methods mutate the object and talk to a
    serial port through the Micro-Manager device framework.  Methods are
    embedded as computations in a small state monad: the state is the
    object together with the trace of the calls it made on the framework's
    serial and logging services; the environment holds what those services
    answer during the call. *)

From Stdlib Require Import ZArith Lia Bool List String Ascii.
From Stdlib Require Import Decimal DecimalString DecimalPos DecimalZ.
Import ListNotations.

Local Open Scope string_scope.
Local Open Scope Z_scope.

Set Implicit Arguments.

(** ** Constants *)

(** [AndorAMH.h] *)
Definition ERR_PORT_CHANGE_FORBIDDEN : Z := 10004.
Definition ERR_UNRECOGNIZED_ANSWER : Z := 10009.
Definition ERR_UNSPECIFIED_ERROR : Z := 10010.
Definition ERR_OFFSET : Z := 10100.

(** Return codes of the device framework ([MMDeviceConstants.h], which the
    adapter includes through [MMDevice.h]; the header is not among the
    sources). *)
Definition DEVICE_OK : Z := 0.
Definition DEVICE_INVALID_PROPERTY : Z := 2.
Definition DEVICE_INVALID_PROPERTY_VALUE : Z := 3.
Definition DEVICE_DUPLICATE_PROPERTY : Z := 4.
Definition DEVICE_UNSUPPORTED_COMMAND : Z := 11.

(** ** Machine integers

    A C++ [int] is a 32-bit two's complement number; a value that leaves the
    range is brought back by [to_int]. *)
Definition INT_MIN : Z := - 2 ^ 31.
Definition INT_MAX : Z := 2 ^ 31 - 1.

Definition to_int (z : Z) : Z := (z + 2 ^ 31) mod 2 ^ 32 - 2 ^ 31.

Definition int_add (a b : Z) : Z := to_int (a + b).

(** ** Strings of the C and C++ libraries *)

(** [s.substr(pos, n)] for [pos <= s.length()]. *)
Definition substr (pos n : nat) (s : string) : string := String.substring pos n s.

(** [s.substr(pos)]: the tail of [s] from index [pos]. *)
Definition substr_from (pos : nat) (s : string) : string :=
  String.substring pos (String.length s - pos) s.

(** [a.compare(b) == 0] *)
Definition compare_eq (a b : string) : bool := String.eqb a b.

(** [isspace] in the C locale. *)
Definition isspace (c : ascii) : bool :=
  let n := nat_of_ascii c in
  (Nat.eqb n 32 || (Nat.leb 9 n && Nat.leb n 13))%bool.

Definition isdigit (c : ascii) : bool :=
  let n := nat_of_ascii c in (Nat.leb 48 n && Nat.leb n 57)%bool.

Definition digit_value (c : ascii) : Z := Z.of_nat (nat_of_ascii c) - 48.

Fixpoint skip_space (s : string) : string :=
  match s with
  | String c s' => if isspace c then skip_space s' else s
  | EmptyString => s
  end.

(** The digits at the front of [s], accumulated on [acc]; stops at the first
    character that is not a digit. *)
Fixpoint leading_digits (s : string) (acc : Z) : Z :=
  match s with
  | String c s' =>
      if isdigit c then leading_digits s' (10 * acc + digit_value c) else acc
  | EmptyString => acc
  end.

(** The number written at the front of [s], as [strtol(s, NULL, 10)] reads
    it: white space, an optional sign and the longest run of digits; 0 when
    there is no digit. *)
Definition strtol10 (s : string) : Z :=
  match skip_space s with
  | String "-" s' => - leading_digits s' 0
  | String "+" s' => leading_digits s' 0
  | s' => leading_digits s' 0
  end.

(** A [long] is a 64-bit two's complement number. *)
Definition LONG_MIN : Z := - 2 ^ 63.
Definition LONG_MAX : Z := 2 ^ 63 - 1.

(** [strtol(s, NULL, 10)]: the number written, held at [LONG_MAX] or
    [LONG_MIN] when it is beyond the range of a [long]. *)
Definition strtol (s : string) : Z :=
  Z.max LONG_MIN (Z.min LONG_MAX (strtol10 s)).

(** [atoi]: [(int) strtol(s, NULL, 10)], the number read brought into the
    range of an [int]. *)
Definition atoi (s : string) : Z := to_int (strtol s).

(** [os << v] for a [long], and [boost::lexical_cast<std::string,int>]:
    decimal digits, with a minus sign for a negative number. *)
Definition ostream_long (v : Z) : string := NilZero.string_of_int (Z.to_int v).

Definition lexical_cast (v : Z) : string := ostream_long v.

(** ** Time

    [MM::MMTime] is a whole number of microseconds; [a - b] and [a < b] are
    those of the integers. *)
Definition MMTime : Type := Z.

(** ** The framework's services

    What the framework answers during one call of a method: the clock
    reading, and the outcome of the three serial-port calls.  No method of
    the adapter makes more than one command cycle. *)
Record Env : Type := mkEnv {
  clock : MMTime;           (* GetCurrentMMTime() *)
  purge_result : Z;         (* PurgeComPort *)
  send_result : Z;          (* SendSerialCommand *)
  answer_result : Z;        (* GetSerialAnswer: return code *)
  answer_text : string      (* GetSerialAnswer: the line received *)
}.

(** The calls an adapter method makes on the serial port and the logger. *)
Inductive IoEvent : Type :=
| EvPurge (port : string)
| EvSend (port command term : string)
| EvAnswer (port term : string)
| EvLog (message : string) (debugOnly : bool).

(** [MM::ActionType] *)
Inductive ActionType : Type :=
| NoAction | BeforeGet | AfterSet | IsSequenceable
| AfterLoadSequence | StartSequence | StopSequence.

(** ** Properties

    A property of the framework holds a value; an integer property may have
    limits and a list of allowed values. *)
Record StringProperty : Type := mkStringProperty { svalue : string }.

Record IntegerProperty : Type := mkIntegerProperty {
  ivalue : Z;
  ilimits : option (Z * Z);
  iallowed : list Z
}.

(** Modelled from the spec: [IntegerProperty::Set(long)] of the device
    framework, which is not among the sources.  The spec has a level outside
    [1, 100] refused before it is stored; the limits are those the adapter
    declares with [SetPropertyLimits].  The value is refused, and the old
    one kept, when the property has limits and the new value is outside
    them. *)
Definition Set_long (v : Z) (p : IntegerProperty) : option IntegerProperty :=
  match ilimits p with
  | Some (lo, hi) =>
      if ((v <? lo) || (hi <? v))%bool then None
      else Some (mkIntegerProperty v (ilimits p) (iallowed p))
  | None => Some (mkIntegerProperty v (ilimits p) (iallowed p))
  end.

(** A handler ignores the result of [pProp->Set]. *)
Definition Set_long_ (v : Z) (p : IntegerProperty) : IntegerProperty :=
  match Set_long v p with Some p' => p' | None => p end.

(** Modelled from the spec: [IsAllowed] of the device framework, for the
    values the adapter declares with [AddAllowedValue]; any value is allowed
    when none was declared. *)
Definition IsAllowed (v : Z) (p : IntegerProperty) : bool :=
  match iallowed p with
  | [] => true
  | l => existsb (Z.eqb v) l
  end.

(** ** The protocol as the specification words it

    These definitions follow the specification, not the code; the theorems
    below compare the two. *)

(** The parse result of a reply. *)
Inductive CommandReply : Type :=
| Ack
| DeviceError (code : Z)
| Malformed (raw : string).

(** A valid integer: an optional minus sign and at least one decimal digit,
    nothing else, with a value that fits the 32-bit error code. *)
Definition spec_parse_int (s : string) : option Z :=
  match NilZero.int_of_string s with
  | Some d =>
      let n := Z.of_int d in
      if ((INT_MIN <=? n) && (n <=? INT_MAX))%bool then Some n else None
  | None => None
  end.

(** [decode]: the first character decides; an ['E'] reply longer than 2
    carries its code from index 2 on. *)
Definition spec_decode (raw : string) : CommandReply :=
  match raw with
  | String "R" _ => Ack
  | String "E" _ =>
      if Nat.ltb 2 (String.length raw) then
        match spec_parse_int (substr_from 2 raw) with
        | Some code => DeviceError code
        | None => Malformed raw
        end
      else Malformed raw
  | _ => Malformed raw
  end.

(** The commands among the calls of a trace, oldest first. *)
Fixpoint sent_commands (tr : list IoEvent) : list string :=
  match tr with
  | EvSend _ command _ :: tr' => command :: sent_commands tr'
  | _ :: tr' => sent_commands tr'
  | [] => []
  end.

(** The three serial-port calls of a cycle all return [DEVICE_OK]. *)
Definition transport_ok (e : Env) : bool :=
  ((purge_result e =? DEVICE_OK) && (send_result e =? DEVICE_OK)
   && (answer_result e =? DEVICE_OK))%bool.

Section Adapter.

(** The type [double] and the operations on it that the adapter uses:
    the constants [0.0] and [1000.0], the product, and the constructor
    [MM::MMTime(double)] that turns a number of microseconds into a time. *)
Variable double : Type.
Variable d0 : double.
Variable d1000 : double.
Variable dmul : double -> double -> double.
Variable MMTime_of_double : double -> MMTime.

Record FloatProperty : Type := mkFloatProperty { fvalue : double }.

(** ** The object

    The members of [AndorAMH], and of its base class the delay and the
    properties the adapter creates. *)
Record AndorAMH : Type := mkAndorAMH {
  initialized_ : bool;
  port_ : string;
  changedTime_ : MMTime;
  intensity_ : Z;
  curState_ : bool;
  delayMs_ : double;
  usesDelay_ : bool;
  prop_Port : option StringProperty;
  prop_State : option IntegerProperty;
  prop_Delay : option FloatProperty;
  prop_Intensity : option IntegerProperty
}.

Definition set_initialized_ (v : bool) (a : AndorAMH) : AndorAMH :=
  mkAndorAMH v (port_ a) (changedTime_ a) (intensity_ a) (curState_ a)
    (delayMs_ a) (usesDelay_ a) (prop_Port a) (prop_State a) (prop_Delay a)
    (prop_Intensity a).

Definition set_port_ (v : string) (a : AndorAMH) : AndorAMH :=
  mkAndorAMH (initialized_ a) v (changedTime_ a) (intensity_ a) (curState_ a)
    (delayMs_ a) (usesDelay_ a) (prop_Port a) (prop_State a) (prop_Delay a)
    (prop_Intensity a).

Definition set_changedTime_ (v : MMTime) (a : AndorAMH) : AndorAMH :=
  mkAndorAMH (initialized_ a) (port_ a) v (intensity_ a) (curState_ a)
    (delayMs_ a) (usesDelay_ a) (prop_Port a) (prop_State a) (prop_Delay a)
    (prop_Intensity a).

Definition set_intensity_ (v : Z) (a : AndorAMH) : AndorAMH :=
  mkAndorAMH (initialized_ a) (port_ a) (changedTime_ a) v (curState_ a)
    (delayMs_ a) (usesDelay_ a) (prop_Port a) (prop_State a) (prop_Delay a)
    (prop_Intensity a).

Definition set_curState_ (v : bool) (a : AndorAMH) : AndorAMH :=
  mkAndorAMH (initialized_ a) (port_ a) (changedTime_ a) (intensity_ a) v
    (delayMs_ a) (usesDelay_ a) (prop_Port a) (prop_State a) (prop_Delay a)
    (prop_Intensity a).

Definition set_delayMs_ (v : double) (a : AndorAMH) : AndorAMH :=
  mkAndorAMH (initialized_ a) (port_ a) (changedTime_ a) (intensity_ a)
    (curState_ a) v (usesDelay_ a) (prop_Port a) (prop_State a) (prop_Delay a)
    (prop_Intensity a).

Definition set_usesDelay_ (v : bool) (a : AndorAMH) : AndorAMH :=
  mkAndorAMH (initialized_ a) (port_ a) (changedTime_ a) (intensity_ a)
    (curState_ a) (delayMs_ a) v (prop_Port a) (prop_State a) (prop_Delay a)
    (prop_Intensity a).

Definition set_prop_Port (v : option StringProperty) (a : AndorAMH) : AndorAMH :=
  mkAndorAMH (initialized_ a) (port_ a) (changedTime_ a) (intensity_ a)
    (curState_ a) (delayMs_ a) (usesDelay_ a) v (prop_State a) (prop_Delay a)
    (prop_Intensity a).

Definition set_prop_State (v : option IntegerProperty) (a : AndorAMH) : AndorAMH :=
  mkAndorAMH (initialized_ a) (port_ a) (changedTime_ a) (intensity_ a)
    (curState_ a) (delayMs_ a) (usesDelay_ a) (prop_Port a) v (prop_Delay a)
    (prop_Intensity a).

Definition set_prop_Delay (v : option FloatProperty) (a : AndorAMH) : AndorAMH :=
  mkAndorAMH (initialized_ a) (port_ a) (changedTime_ a) (intensity_ a)
    (curState_ a) (delayMs_ a) (usesDelay_ a) (prop_Port a) (prop_State a) v
    (prop_Intensity a).

Definition set_prop_Intensity (v : option IntegerProperty) (a : AndorAMH) : AndorAMH :=
  mkAndorAMH (initialized_ a) (port_ a) (changedTime_ a) (intensity_ a)
    (curState_ a) (delayMs_ a) (usesDelay_ a) (prop_Port a) (prop_State a)
    (prop_Delay a) v.

(** ** Methods as computations

    A method reads the environment and transforms the object and the trace
    of the calls made so far (oldest first). *)
Record St : Type := mkSt { self : AndorAMH; trace : list IoEvent }.

Definition M (A : Type) : Type := Env -> St -> A * St.

Definition Ret {A} (a : A) : M A := fun _ s => (a, s).

Definition Bind {A B} (m : M A) (k : A -> M B) : M B :=
  fun e s => let (a, s') := m e s in k a e s'.

Notation "x <- m ;; k" := (Bind m (fun x => k))
  (at level 61, m at next level, right associativity).
Notation "m ;;; k" := (Bind m (fun _ => k))
  (at level 61, right associativity).

(** Reading and writing a member. *)
Definition member {A} (f : AndorAMH -> A) : M A := fun _ s => (f (self s), s).

Definition assign (f : AndorAMH -> AndorAMH) : M unit :=
  fun _ s => (tt, mkSt (f (self s)) (trace s)).

Definition emit (ev : IoEvent) : M unit :=
  fun _ s => (tt, mkSt (self s) (trace s ++ [ev])).

Definition ask {A} (f : Env -> A) : M A := fun e s => (f e, s).

(** The services of the base class. *)
Definition GetCurrentMMTime : M MMTime := ask clock.

Definition PurgeComPort (port : string) : M Z :=
  emit (EvPurge port) ;;; ask purge_result.

Definition SendSerialCommand (port command term : string) : M Z :=
  emit (EvSend port command term) ;;; ask send_result.

Definition GetSerialAnswer (port term : string) : M (Z * string) :=
  emit (EvAnswer port term) ;;;
  r <- ask answer_result ;;
  a <- ask answer_text ;;
  Ret (r, a).

Definition LogMessage (msg : string) (debugOnly : bool) : M unit :=
  emit (EvLog msg debugOnly).

Definition GetDelayMs : M double := member delayMs_.

Definition SetDelayMs (d : double) : M unit := assign (set_delayMs_ d).

Definition EnableDelay : M unit := assign (set_usesDelay_ true).

(** [ret != DEVICE_OK] *)
Definition failed (ret : Z) : bool := negb (ret =? DEVICE_OK).

Definition CR : string := String (ascii_of_nat 13) EmptyString.

(** ** The command cycle: [AndorAMH::SetShutterPosition] *)
Definition SetShutterPosition (state : bool) : M Z :=
  port <- member port_ ;;
  ret <- PurgeComPort port ;;
  if failed ret then Ret ret else
  intensity <- member intensity_ ;;
  let command := "LIGHT," ++ ostream_long (if state then intensity else 0) in
  ret <- SendSerialCommand port command CR ;;
  if failed ret then Ret ret else
  ra <- GetSerialAnswer port CR ;;
  let (ret, answer) := ra : Z * string in
  if failed ret then Ret ret else
  now <- GetCurrentMMTime ;;
  assign (set_changedTime_ now) ;;;
  if compare_eq (substr 0 1 answer) "R" then Ret DEVICE_OK
  else if (compare_eq (substr 0 1 answer) "E"
           && Nat.ltb 2 (String.length answer))%bool then
    let errNo := atoi (substr_from 2 answer) in
    let messg := lexical_cast errNo in
    LogMessage ("Error in received answer, giving code: " ++ messg) true ;;;
    Ret (int_add ERR_OFFSET errNo)
  else Ret DEVICE_OK.

(** ** Action handlers

    A handler receives the property it serves ([pProp]) and returns it as it
    leaves it, with the return code. *)

(** [AndorAMH::OnState] *)
Definition OnState (pProp : IntegerProperty) (eAct : ActionType)
  : M (IntegerProperty * Z) :=
  match eAct with
  | BeforeGet => Ret (pProp, DEVICE_OK)
  | AfterSet =>
      let pos := ivalue pProp in
      assign (set_curState_ (if pos =? 0 then false else true)) ;;;
      cur <- member curState_ ;;
      ret <- SetShutterPosition cur ;;
      Ret (pProp, ret)
  | _ => Ret (pProp, DEVICE_OK)
  end.

(** [AndorAMH::OnPort] *)
Definition OnPort (pProp : StringProperty) (eAct : ActionType)
  : M (StringProperty * Z) :=
  match eAct with
  | BeforeGet =>
      port <- member port_ ;;
      Ret (mkStringProperty port, DEVICE_OK)
  | AfterSet =>
      init <- member initialized_ ;;
      if init : bool then
        port <- member port_ ;;
        Ret (mkStringProperty port, ERR_PORT_CHANGE_FORBIDDEN)
      else
        assign (set_port_ (svalue pProp)) ;;;
        Ret (pProp, DEVICE_OK)
  | _ => Ret (pProp, DEVICE_OK)
  end.

(** [AndorAMH::OnDelay] *)
Definition OnDelay (pProp : FloatProperty) (eAct : ActionType)
  : M (FloatProperty * Z) :=
  match eAct with
  | BeforeGet =>
      d <- GetDelayMs ;;
      Ret (mkFloatProperty d, DEVICE_OK)
  | AfterSet =>
      let delay := fvalue pProp in
      SetDelayMs delay ;;;
      Ret (pProp, DEVICE_OK)
  | _ => Ret (pProp, DEVICE_OK)
  end.

(** [AndorAMH::OnIntensity] *)
Definition OnIntensity (pProp : IntegerProperty) (eAct : ActionType)
  : M (IntegerProperty * Z) :=
  match eAct with
  | BeforeGet =>
      i <- member intensity_ ;;
      Ret (Set_long_ i pProp, DEVICE_OK)
  | AfterSet =>
      assign (set_intensity_ (ivalue pProp)) ;;;
      cur <- member curState_ ;;
      if cur : bool then
        ret <- SetShutterPosition cur ;;
        Ret (pProp, ret)
      else Ret (pProp, DEVICE_OK)
  | _ => Ret (pProp, DEVICE_OK)
  end.

(** ** The property calls of the base class *)

(** Modelled from the spec: [SetProperty] and [GetProperty] of the base
    class [CDeviceBase], which is not among the sources.  [SetProperty]
    looks the property up, validates and stores the new value (the spec:
    validate, else fail before any I/O; store; then issue the command), and
    runs the handler with [AfterSet]; [GetProperty] runs the handler with
    [BeforeGet] and reads the value.  The handler works on the stored
    property itself. *)
Definition Execute {P} (slot : AndorAMH -> option P)
    (store : option P -> AndorAMH -> AndorAMH)
    (handler : P -> ActionType -> M (P * Z))
    (take : P -> option P) (eAct : ActionType) : M Z :=
  op <- member slot ;;
  match op with
  | None => Ret DEVICE_INVALID_PROPERTY
  | Some p =>
      match take p with
      | None => Ret DEVICE_INVALID_PROPERTY_VALUE
      | Some p1 =>
          assign (store (Some p1)) ;;;
          pr <- handler p1 eAct ;;
          assign (store (Some (fst pr))) ;;;
          Ret (snd pr)
      end
  end.

Definition take_long (v : Z) (p : IntegerProperty) : option IntegerProperty :=
  if IsAllowed v p then Set_long v p else None.

Definition SetProperty_State (v : Z) : M Z :=
  Execute prop_State set_prop_State OnState (take_long v) AfterSet.

Definition SetProperty_Intensity (v : Z) : M Z :=
  Execute prop_Intensity set_prop_Intensity OnIntensity (take_long v) AfterSet.

Definition SetProperty_Port (v : string) : M Z :=
  Execute prop_Port set_prop_Port OnPort
    (fun _ => Some (mkStringProperty v)) AfterSet.

Definition SetProperty_Delay (v : double) : M Z :=
  Execute prop_Delay set_prop_Delay OnDelay
    (fun _ => Some (mkFloatProperty v)) AfterSet.

Definition GetProperty_State : M (Z * Z) :=
  ret <- Execute prop_State set_prop_State OnState Some BeforeGet ;;
  p <- member prop_State ;;
  Ret (ret, match p with Some q => ivalue q | None => 0 end).

Definition GetProperty_Port : M (Z * string) :=
  ret <- Execute prop_Port set_prop_Port OnPort Some BeforeGet ;;
  p <- member prop_Port ;;
  Ret (ret, match p with Some q => svalue q | None => EmptyString end).

Definition GetProperty_Intensity : M (Z * Z) :=
  ret <- Execute prop_Intensity set_prop_Intensity OnIntensity Some BeforeGet ;;
  p <- member prop_Intensity ;;
  Ret (ret, match p with Some q => ivalue q | None => 0 end).

(** [CreateProperty] of the base class: refused when the property exists. *)
Definition CreateProperty {P} (slot : AndorAMH -> option P)
    (store : option P -> AndorAMH -> AndorAMH) (p : P) : M Z :=
  op <- member slot ;;
  match op with
  | Some _ => Ret DEVICE_DUPLICATE_PROPERTY
  | None => assign (store (Some p)) ;;; Ret DEVICE_OK
  end.

Definition AddAllowedValue_State (v : Z) : M unit :=
  op <- member prop_State ;;
  match op with
  | Some p =>
      assign (set_prop_State
                (Some (mkIntegerProperty (ivalue p) (ilimits p) (iallowed p ++ [v]))))
  | None => Ret tt
  end.

Definition SetPropertyLimits_Intensity (lo hi : Z) : M Z :=
  op <- member prop_Intensity ;;
  match op with
  | Some p =>
      assign (set_prop_Intensity
                (Some (mkIntegerProperty (ivalue p) (Some (lo, hi)) (iallowed p)))) ;;;
      Ret DEVICE_OK
  | None => Ret DEVICE_INVALID_PROPERTY
  end.

(** [UpdateStatus]: every property there is runs its handler with
    [BeforeGet], in the order of the names; the first failure is returned. *)
Definition Update {P} (slot : AndorAMH -> option P)
    (store : option P -> AndorAMH -> AndorAMH)
    (handler : P -> ActionType -> M (P * Z)) : M Z :=
  op <- member slot ;;
  match op with
  | None => Ret DEVICE_OK
  | Some _ => Execute slot store handler Some BeforeGet
  end.

Definition UpdateStatus : M Z :=
  ret <- Update prop_Delay set_prop_Delay OnDelay ;;
  if failed ret then Ret ret else
  ret <- Update prop_Intensity set_prop_Intensity OnIntensity ;;
  if failed ret then Ret ret else
  ret <- Update prop_Port set_prop_Port OnPort ;;
  if failed ret then Ret ret else
  Update prop_State set_prop_State OnState.

(** ** Construction, initialisation, shutdown *)

Definition g_port_default : string := "Andor-AMH200-FOS".

(** The object after the constructors of the base classes and the member
    initialisers of [AndorAMH::AndorAMH].  The base class [CDeviceBase] is
    not among the sources: as the specification has it, it starts without a
    property and with the delay at 0. *)
Definition member_initialisers : AndorAMH :=
  mkAndorAMH false g_port_default (MMTime_of_double d0) 1 false
    d0 false None None None None.

(** The body of [AndorAMH::AndorAMH]; the properties Name and Description
    are read-only texts without a handler and are left out. *)
Definition constructor_body : M unit :=
  CreateProperty prop_Port set_prop_Port (mkStringProperty g_port_default) ;;;
  EnableDelay.

(** [new AndorAMH()] *)
Definition new_AndorAMH : AndorAMH :=
  self (snd (constructor_body (mkEnv 0 0 0 0 EmptyString)
               (mkSt member_initialisers []))).

(** [AndorAMH::Initialize] *)
Definition Initialize : M Z :=
  ret <- CreateProperty prop_State set_prop_State (mkIntegerProperty 0 None []) ;;
  if failed ret then Ret ret else
  AddAllowedValue_State 0 ;;;
  AddAllowedValue_State 1 ;;;
  ret <- CreateProperty prop_Delay set_prop_Delay (mkFloatProperty d0) ;;
  if failed ret then Ret ret else
  ret <- CreateProperty prop_Intensity set_prop_Intensity
           (mkIntegerProperty 100 None []) ;;
  if failed ret then Ret ret else
  ret <- SetPropertyLimits_Intensity 1 100 ;;
  if failed ret then Ret ret else
  ret <- UpdateStatus ;;
  if failed ret then Ret ret else
  cur <- member curState_ ;;
  SetProperty_State (if cur : bool then 1 else 0) ;;;
  now <- GetCurrentMMTime ;;
  assign (set_changedTime_ now) ;;;
  assign (set_initialized_ true) ;;;
  Ret DEVICE_OK.

(** [AndorAMH::Shutdown] *)
Definition Shutdown : M Z :=
  init <- member initialized_ ;;
  if init : bool then
    ret <- SetShutterPosition false ;;
    if failed ret then Ret ret else
    assign (set_initialized_ false) ;;;
    Ret DEVICE_OK
  else Ret DEVICE_OK.

(** ** The shutter interface *)

(** [AndorAMH::Busy] *)
Definition Busy : M bool :=
  now <- GetCurrentMMTime ;;
  changed <- member changedTime_ ;;
  let interval := now - changed in
  ms <- GetDelayMs ;;
  let delay := MMTime_of_double (dmul ms d1000) in
  if interval <? delay then Ret true else Ret false.

(** [AndorAMH::SetOpen] *)
Definition SetOpen (open : bool) : M Z :=
  let pos := if open then 1 else 0 in
  SetProperty_State pos.

(** [AndorAMH::GetOpen]; [open] is the reference argument, returned as the
    method leaves it. *)
Definition GetOpen (open : bool) : M (Z * bool) :=
  rv <- GetProperty_State ;;
  let (ret, pos) := rv : Z * Z in
  if failed ret then Ret (ret, open) else
  Ret (DEVICE_OK, if pos =? 1 then true else false).

(** [AndorAMH::Fire] *)
Definition Fire (deltaT : double) : M Z := Ret DEVICE_UNSUPPORTED_COMMAND.

(** ** The module interface *)

(** [g_AndorAMH] *)
Definition g_AndorAMH : string := "AndorAMH".

(** [strcmp], by its sign. *)
Definition strcmp (a b : string) : Z :=
  match String.compare a b with
  | Eq => 0
  | Lt => -1
  | Gt => 1
  end.

(** [CreateDevice]; a null pointer, argument or result, is [None]. *)
Definition CreateDevice (deviceName : option string) : option AndorAMH :=
  match deviceName with
  | None => None
  | Some name =>
      if strcmp name g_AndorAMH =? 0 then Some new_AndorAMH else None
  end.

(** [AndorAMH::~AndorAMH] *)
Definition destroy_AndorAMH : M unit :=
  Shutdown ;;; Ret tt.

(** [DeleteDevice] of a device that is an [AndorAMH]: [delete] runs the
    destructor. *)
Definition DeleteDevice : M unit := destroy_AndorAMH.

(** Two objects with the same data members ([initialized_], [port_],
    [changedTime_], [intensity_], [curState_] and the delay); their
    properties may differ. *)
Definition same_members (a b : AndorAMH) : Prop :=
  initialized_ a = initialized_ b
  /\ port_ a = port_ b
  /\ changedTime_ a = changedTime_ b
  /\ intensity_ a = intensity_ b
  /\ curState_ a = curState_ b
  /\ delayMs_ a = delayMs_ b.

End Adapter.

(** ** A controller to run

    For runs the type [double] is taken as the integers: a delay is a whole
    number of milliseconds and [MM::MMTime(d)] is [d] microseconds. *)
Definition new_controller : St Z := mkSt (new_AndorAMH 0 (fun d : Z => d)) [].

(** The serial port accepts every call and the device acknowledges. *)
Definition acknowledging (t : MMTime) : Env := mkEnv t 0 0 0 "R".

(** The controller after [Initialize], at time 5000. *)
Definition ready_controller : St Z :=
  snd (Initialize 0 (acknowledging 5000) new_controller).

(** The initialised controller after an acknowledged open command at time
    6000. *)
Definition open_controller : St Z :=
  snd (SetOpen true (acknowledging 6000) ready_controller).

(** * Properties *)

(** ** Integers and decimal text *)

Lemma to_int_id (z : Z) : INT_MIN <= z <= INT_MAX -> to_int z = z.
Proof.
  unfold INT_MIN, INT_MAX, to_int. intros H.
  rewrite Z.mod_small; lia.
Qed.






(** What [os << v] writes parses back to [v]: it is the decimal rendering. *)
Lemma spec_parse_int_ostream_long (z : Z) :
  INT_MIN <= z <= INT_MAX -> spec_parse_int (ostream_long z) = Some z.
Proof.
  intros Hz. unfold spec_parse_int, ostream_long.
  rewrite NilZero.isi.
  - rewrite DecimalZ.of_to.
    replace (_ && _)%bool with true; [reflexivity|].
    symmetry. apply andb_true_iff. lia.
  - destruct z; cbn; try discriminate.
    intros [= H]. now apply Unsigned.to_uint_nonnil in H.
  - destruct z; cbn; try discriminate.
    intros [= H]. now apply Unsigned.to_uint_nonnil in H.
Qed.

Lemma sent_commands_app (a b : list IoEvent) :
  sent_commands (a ++ b) = (sent_commands a ++ sent_commands b)%list.
Proof.
  induction a as [|ev a IH]; [reflexivity|].
  destruct ev; simpl; rewrite IH; reflexivity.
Qed.

Section AdapterProperties.

Variable double : Type.
Variable d0 : double.
Variable d1000 : double.
Variable dmul : double -> double -> double.
Variable MMTime_of_double : double -> MMTime.

Let Obj := AndorAMH double.
Let State := St double.

(** ** The monad and the record updates *)

Lemma Bind_eq {A B : Type} (m : M double A) (k : A -> M double B) (e : Env) (s : State) :
  Bind m k e s = k (fst (m e s)) e (snd (m e s)).
Proof. unfold Bind. destruct (m e s). reflexivity. Qed.

Lemma Bind_inv {A B : Type} (m : M double A) (k : A -> M double B) (e : Env)
    (s s' : State) (r : B) :
  Bind m k e s = (r, s') ->
  exists a s1, m e s = (a, s1) /\ k a e s1 = (r, s').
Proof.
  unfold Bind. destruct (m e s) as [a s1]. intros H. exists a, s1. auto.
Qed.

Tactic Notation "bind_inv" hyp(H) "as" ident(a) ident(s) ident(E) :=
  apply Bind_inv in H; destruct H as (a & s & E & H).

Ltac bind_step r s E :=
  match goal with
  | |- context [Bind ?m ?k ?e ?s0] =>
      rewrite (Bind_eq m k e s0);
      destruct (m e s0) as [r s] eqn:E; cbn [fst snd]
  end.

Lemma St_eta (s : State) : mkSt (self s) (trace s) = s.
Proof.
  destruct s; reflexivity.
Qed.

Lemma set_changedTime_same (a : Obj) : set_changedTime_ (changedTime_ a) a = a.
Proof.
  destruct a; reflexivity.
Qed.

Lemma set_prop_State_same (a : Obj) (v : option IntegerProperty) :
  prop_State a = v -> set_prop_State v a = a.
Proof.
  destruct a; cbn; intros <-; reflexivity.
Qed.

(** Reading a member of an object written as an update of another. *)
Ltac members :=
  cbn [initialized_ port_ changedTime_ intensity_ curState_ delayMs_ usesDelay_
       prop_Port prop_State prop_Delay prop_Intensity
       set_initialized_ set_port_ set_changedTime_ set_intensity_ set_curState_
       set_delayMs_ set_usesDelay_ set_prop_Port set_prop_State set_prop_Delay
       set_prop_Intensity].

(** ** The command cycle *)

Ltac run :=
  unfold SetShutterPosition, PurgeComPort, SendSerialCommand, GetSerialAnswer,
    GetCurrentMMTime, LogMessage, GetDelayMs, SetDelayMs, Bind, Ret, member,
    assign, emit, ask;
  cbn [fst snd self trace].

Ltac split_transport e :=
  unfold transport_ok, failed;
  destruct (purge_result e =? DEVICE_OK); cbn [negb andb fst snd self trace];
  [destruct (send_result e =? DEVICE_OK); cbn [negb andb fst snd self trace];
   [destruct (answer_result e =? DEVICE_OK); cbn [negb andb fst snd self trace]|]|].

(** A cycle changes no member but the time stamp. *)
Lemma SetShutterPosition_self (state : bool) (e : Env) (s : State) :
  self (snd (SetShutterPosition state e s))
  = set_changedTime_
      (if transport_ok e then clock e else changedTime_ (self s)) (self s).
Proof.
  run. split_transport e; rewrite ?set_changedTime_same; try reflexivity.
  destruct (compare_eq _ _); [reflexivity|].
  destruct (_ && _)%bool; reflexivity.
Qed.

(** A cycle sends one command, unless the purge fails. *)
Lemma SetShutterPosition_sent (state : bool) (e : Env) (s : State) :
  sent_commands (trace (snd (SetShutterPosition state e s)))
  = (sent_commands (trace s)
     ++ (if failed (purge_result e) then []
         else [("LIGHT," ++ ostream_long (if state then intensity_ (self s) else 0))%string]))%list.
Proof.
  run. split_transport e;
    [destruct (compare_eq _ _); [|destruct (_ && _)%bool] | ..];
    cbn [snd trace]; rewrite !sent_commands_app; cbn [sent_commands];
    rewrite ?List.app_nil_r; reflexivity.
Qed.

(** The return code after a complete round trip. *)
Lemma SetShutterPosition_ret (state : bool) (e : Env) (s : State) :
  transport_ok e = true ->
  fst (SetShutterPosition state e s)
  = if compare_eq (substr 0 1 (answer_text e)) "R" then DEVICE_OK
    else if (compare_eq (substr 0 1 (answer_text e)) "E"
             && Nat.ltb 2 (String.length (answer_text e)))%bool
         then int_add ERR_OFFSET (atoi (substr_from 2 (answer_text e)))
         else DEVICE_OK.
Proof.
  run. split_transport e; try discriminate. intros _.
  destruct (compare_eq _ _); [reflexivity|].
  destruct (_ && _)%bool; reflexivity.
Qed.

(** A failed serial-port call is returned as it is. *)
Lemma SetShutterPosition_ret_failed (state : bool) (e : Env) (s : State) :
  transport_ok e = false -> fst (SetShutterPosition state e s) <> DEVICE_OK.
Proof.
  run. unfold transport_ok, failed.
  destruct (purge_result e =? DEVICE_OK) eqn:Hp; cbn [negb andb fst];
    [|intros _; apply Z.eqb_neq; exact Hp].
  destruct (send_result e =? DEVICE_OK) eqn:Hs; cbn [negb andb fst];
    [|intros _; apply Z.eqb_neq; exact Hs].
  destruct (answer_result e =? DEVICE_OK) eqn:Ha; cbn [negb andb fst];
    [discriminate|intros _; apply Z.eqb_neq; exact Ha].
Qed.

(** A reply that starts with neither ['R'] nor ['E'], or an ['E'] reply of
    length at most 2, ends the cycle with [DEVICE_OK]. *)
Lemma SetShutterPosition_unrecognised (state : bool) (e : Env) (s : State) :
  transport_ok e = true ->
  spec_decode (answer_text e) = Malformed (answer_text e) ->
  substr 0 1 (answer_text e) <> "E"
  \/ (String.length (answer_text e) <= 2)%nat ->
  fst (SetShutterPosition state e s) = DEVICE_OK.
Proof.
  intros Hok Hm Hshort. rewrite SetShutterPosition_ret by exact Hok.
  destruct (answer_text e) as [|c r]; [reflexivity|].
  unfold substr, compare_eq in *. cbn [String.substring] in *.
  replace (String.substring 0 0 r) with EmptyString in * by (destruct r; reflexivity).
  cbn [String.eqb].
  destruct (Ascii.eqb_spec c "R") as [->|HR]; [discriminate Hm|].
  destruct (Ascii.eqb_spec c "E") as [->|HE]; [|reflexivity].
  destruct Hshort as [Hc|Hl]; [congruence|].
  apply Nat.ltb_ge in Hl. rewrite Hl. reflexivity.
Qed.

(** C1: a reply that the protocol classifies as Malformed should end the
    command cycle with [ERR_UNRECOGNIZED_ANSWER].  The code does not: after
    a complete round trip the replies "X,5", the empty reply and "E", all
    Malformed, end the cycle with [DEVICE_OK], and "E,abc" ends it with
    [ERR_OFFSET + 0]; neither code is [ERR_UNRECOGNIZED_ANSWER]. *)
Theorem reply_malformed_returns_ok (state : bool) (t : MMTime) (s : State) :
  (spec_decode "X,5" = Malformed "X,5"
   /\ fst (SetShutterPosition state (mkEnv t 0 0 0 "X,5") s) = DEVICE_OK)
  /\ (spec_decode "" = Malformed ""
      /\ fst (SetShutterPosition state (mkEnv t 0 0 0 "") s) = DEVICE_OK)
  /\ (spec_decode "E" = Malformed "E"
      /\ fst (SetShutterPosition state (mkEnv t 0 0 0 "E") s) = DEVICE_OK)
  /\ (spec_decode "E,abc" = Malformed "E,abc"
      /\ fst (SetShutterPosition state (mkEnv t 0 0 0 "E,abc") s) = ERR_OFFSET)
  /\ DEVICE_OK <> ERR_UNRECOGNIZED_ANSWER
  /\ ERR_OFFSET <> ERR_UNRECOGNIZED_ANSWER.
Proof.
  repeat split; try reflexivity; try discriminate.
Qed.

(** C4: after a cycle the time stamp [changedTime_] is the current time when
    purge, send and receive all returned [DEVICE_OK], whatever the reply
    (acknowledgement, device error or unrecognised), and is the old time
    stamp when one of the three failed. *)
Theorem changedTime_refreshed_after_round_trip (state : bool) (e : Env) (s : State) :
  changedTime_ (self (snd (SetShutterPosition state e s)))
  = if transport_ok e then clock e else changedTime_ (self s).
Proof.
  rewrite SetShutterPosition_self. reflexivity.
Qed.

(** C3: with a stored intensity [i] between 1 and 100 and a purge that
    succeeds, an open command sends exactly "LIGHT," followed by the decimal
    rendering of [i] (the text that parses back to [i]), and a close command
    sends exactly "LIGHT,0" whatever the intensity. *)
Theorem command_text (e : Env) (s : State) (i : Z) :
  intensity_ (self s) = i ->
  1 <= i <= 100 ->
  purge_result e = DEVICE_OK ->
  sent_commands (trace (snd (SetShutterPosition true e s)))
    = (sent_commands (trace s) ++ [("LIGHT," ++ ostream_long i)%string])%list
  /\ spec_parse_int (ostream_long i) = Some i
  /\ sent_commands (trace (snd (SetShutterPosition false e s)))
     = (sent_commands (trace s) ++ ["LIGHT,0"])%list.
Proof.
  intros Hi Hr Hp.
  rewrite !SetShutterPosition_sent, Hp, Hi.
  repeat split.
  apply spec_parse_int_ostream_long. unfold INT_MIN, INT_MAX. lia.
Qed.


(** C5: [Busy] returns true exactly when the time elapsed since
    [changedTime_] is strictly less than the configured delay (turned from
    milliseconds into a time); it leaves the object as it is and makes no
    call on the serial port. *)
Theorem Busy_iff_interval_lt_delay (e : Env) (s : State) :
  snd (Busy d1000 dmul MMTime_of_double e s) = s
  /\ (fst (Busy d1000 dmul MMTime_of_double e s) = true
      <-> clock e - changedTime_ (self s)
          < MMTime_of_double (dmul (delayMs_ (self s)) d1000)).
Proof.
  unfold Busy. run.
  destruct (Z.ltb_spec (clock e - changedTime_ (self s))
              (MMTime_of_double (dmul (delayMs_ (self s)) d1000))) as [H|H];
    cbn [fst snd]; split; try reflexivity; split; intro; try lia; discriminate.
Qed.

(** C10: [Fire] returns [DEVICE_UNSUPPORTED_COMMAND] for every argument and
    changes nothing. *)
Theorem Fire_unsupported (deltaT : double) (e : Env) (s : State) :
  Fire deltaT e s = (DEVICE_UNSUPPORTED_COMMAND, s).
Proof.
  reflexivity.
Qed.

(** C9: the constructor leaves the shutter closed and the delay at 0, but
    the stored intensity at 1, not at 100. *)
Theorem constructor_defaults :
  curState_ (new_AndorAMH d0 MMTime_of_double) = false
  /\ intensity_ (new_AndorAMH d0 MMTime_of_double) = 1
  /\ intensity_ (new_AndorAMH d0 MMTime_of_double) <> 100
  /\ delayMs_ (new_AndorAMH d0 MMTime_of_double) = d0.
Proof.
  repeat split. discriminate.
Qed.

(** ** Handlers and properties *)

Lemma Execute_found {P : Type} (slot : Obj -> option P)
    (store : option P -> Obj -> Obj)
    (handler : P -> ActionType -> M double (P * Z))
    (take : P -> option P) (eAct : ActionType) (e : Env) (s : State) (p p1 : P) :
  slot (self s) = Some p -> take p = Some p1 ->
  Execute slot store handler take eAct e s
  = let h := handler p1 eAct e (mkSt (store (Some p1) (self s)) (trace s)) in
    (snd (fst h), mkSt (store (Some (fst (fst h))) (self (snd h))) (trace (snd h))).
Proof.
  intros Hs Ht. unfold Execute, Bind, Ret, member, assign. cbn [self trace].
  rewrite Hs, Ht. cbn [self trace].
  destruct (handler p1 eAct e _) as [[p2 r] s2]. reflexivity.
Qed.

Lemma OnState_AfterSet (pProp : IntegerProperty) (e : Env) (s : State) :
  OnState pProp AfterSet e s
  = let cur := if ivalue pProp =? 0 then false else true in
    let c := SetShutterPosition cur e (mkSt (set_curState_ cur (self s)) (trace s)) in
    ((pProp, fst c), snd c).
Proof.
  unfold OnState, Bind, Ret, member, assign. cbn [self trace curState_ set_curState_].
  destruct (SetShutterPosition _ e _) as [r s2]. reflexivity.
Qed.

Lemma SetProperty_State_self (v : Z) (e : Env) (s : State) (p p1 : IntegerProperty) :
  prop_State (self s) = Some p ->
  take_long v p = Some p1 ->
  self (snd (SetProperty_State v e s))
  = set_prop_State (Some p1)
      (set_changedTime_
         (if transport_ok e then clock e else changedTime_ (self s))
         (set_curState_ (if ivalue p1 =? 0 then false else true)
            (set_prop_State (Some p1) (self s)))).
Proof.
  intros Hp Ht. unfold SetProperty_State.
  rewrite (Execute_found _ _ _ _ _ _ _ Hp Ht).
  cbv zeta. cbn [snd self]. rewrite OnState_AfterSet. cbv zeta. cbn [fst snd].
  rewrite SetShutterPosition_self. reflexivity.
Qed.

(** C2, as amended: when the State property is as [Initialize] creates it,
    [SetOpen] leaves the cached flag [curState_] equal to the requested
    state, and [GetOpen] then reports the requested state, whatever the
    serial port answered: acknowledgement, device error, unrecognised reply
    or a failed call. *)
Theorem SetOpen_commits_requested_state (open b : bool) (e e' : Env) (s : State)
    (p : IntegerProperty) :
  prop_State (self s) = Some p ->
  ilimits p = None ->
  iallowed p = [0; 1] ->
  curState_ (self (snd (SetOpen open e s))) = open
  /\ GetOpen b e' (snd (SetOpen open e s)) = ((DEVICE_OK, open), snd (SetOpen open e s)).
Proof.
  intros Hp Hl Ha.
  set (pos := if open then 1 else 0).
  set (p1 := mkIntegerProperty pos None [0; 1]).
  assert (Ht : take_long pos p = Some p1).
  { unfold take_long, IsAllowed, Set_long, p1. rewrite Ha, Hl.
    destruct open; reflexivity. }
  assert (Hs : self (snd (SetOpen open e s))
               = set_prop_State (Some p1)
                   (set_changedTime_
                      (if transport_ok e then clock e else changedTime_ (self s))
                      (set_curState_ open (set_prop_State (Some p1) (self s))))).
  { unfold SetOpen, SetProperty_State. fold pos.
    rewrite (Execute_found _ _ _ _ _ _ _ Hp Ht).
    cbv zeta. cbn [snd self]. rewrite OnState_AfterSet. cbv zeta. cbn [fst snd].
    rewrite SetShutterPosition_self. cbn [self].
    replace (if ivalue p1 =? 0 then false else true) with open
      by (destruct open; reflexivity).
    reflexivity. }
  split.
  - rewrite Hs. reflexivity.
  - set (s' := snd (SetOpen open e s)) in *.
    assert (Hp' : prop_State (self s') = Some p1) by (rewrite Hs; reflexivity).
    unfold GetOpen, GetProperty_State, Bind.
    rewrite (Execute_found _ _ _ _ _ _ _ Hp' eq_refl).
    cbv zeta. cbn [OnState Ret fst snd self trace].
    rewrite !(set_prop_State_same _ Hp'), St_eta.
    unfold member, Ret. rewrite Hp'. cbn [failed negb Z.eqb DEVICE_OK].
    destruct open; reflexivity.
Qed.

(** [SetOpen] touches neither the port nor the initialisation flag. *)
Lemma SetOpen_keeps_lock (open : bool) (e : Env) (s : State) :
  initialized_ (self (snd (SetOpen open e s))) = initialized_ (self s)
  /\ port_ (self (snd (SetOpen open e s))) = port_ (self s).
Proof.
  destruct (prop_State (self s)) as [p|] eqn:Hp.
  - destruct (take_long (if open then 1 else 0) p) as [p1|] eqn:Ht.
    + unfold SetOpen. rewrite (SetProperty_State_self _ e s Hp Ht).
      split; reflexivity.
    + unfold SetOpen, SetProperty_State, Execute, Bind, Ret, member.
      rewrite Hp, Ht. split; reflexivity.
  - unfold SetOpen, SetProperty_State, Execute, Bind, Ret, member.
    rewrite Hp. split; reflexivity.
Qed.

(** C6, as amended: the lock on the port is the flag [initialized_], which
    [Initialize] sets and a successful [Shutdown] clears.  While the flag is
    set, a change of the port fails with [ERR_PORT_CHANGE_FORBIDDEN], leaves
    the object (and so the stored port) as it is, puts the stored port back
    into the property, and a later read of the port reports the stored
    port; while the flag is not set, the change is accepted and stored. *)
Theorem port_locked_when_initialized (pProp q : StringProperty) (e e' : Env) (s : State) :
  (initialized_ (self s) = true ->
     OnPort pProp AfterSet e s
     = ((mkStringProperty (port_ (self s)), ERR_PORT_CHANGE_FORBIDDEN), s)
     /\ svalue (fst (fst (OnPort q BeforeGet e'
                            (snd (OnPort pProp AfterSet e s)))))
        = port_ (self s))
  /\ (initialized_ (self s) = false ->
        fst (OnPort pProp AfterSet e s) = (pProp, DEVICE_OK)
        /\ port_ (self (snd (OnPort pProp AfterSet e s))) = svalue pProp).
Proof.
  unfold OnPort, Bind, Ret, member, assign.
  split; intros Hi; rewrite Hi; cbn [fst snd self svalue]; split; reflexivity.
Qed.

(** C8: when the Intensity property has the limits 1 and 100 that
    [Initialize] gives it, setting a level below 1 or above 100 fails with
    [DEVICE_INVALID_PROPERTY_VALUE] and leaves the object and the trace as
    they are: the stored intensity is unchanged and nothing was sent. *)
Theorem intensity_out_of_range_refused (level : Z) (e : Env) (s : State)
    (p : IntegerProperty) :
  prop_Intensity (self s) = Some p ->
  ilimits p = Some (1, 100) ->
  level < 1 \/ 100 < level ->
  SetProperty_Intensity level e s = (DEVICE_INVALID_PROPERTY_VALUE, s).
Proof.
  intros Hp Hl Hr.
  unfold SetProperty_Intensity, Execute, Bind, Ret, member. cbn [self].
  rewrite Hp.
  assert (Ht : take_long level p = None).
  { unfold take_long, Set_long. rewrite Hl.
    destruct (IsAllowed level p); [|reflexivity].
    replace ((level <? 1) || (100 <? level))%bool with true; [reflexivity|].
    symmetry. apply orb_true_iff. destruct Hr; [left|right]; apply Z.ltb_lt; exact H. }
  rewrite Ht. reflexivity.
Qed.

(** ** Initialisation and shutdown *)

Lemma CreateProperty_eq {P : Type} (slot : Obj -> option P)
    (store : option P -> Obj -> Obj) (p : P) (e : Env) (s : State) :
  CreateProperty slot store p e s
  = match slot (self s) with
    | Some _ => (DEVICE_DUPLICATE_PROPERTY, s)
    | None => (DEVICE_OK, mkSt (store (Some p) (self s)) (trace s))
    end.
Proof.
  unfold CreateProperty, Bind, Ret, member, assign.
  destruct (slot (self s)); reflexivity.
Qed.

Lemma CreateProperty_inv {P : Type} (slot : Obj -> option P)
    (store : option P -> Obj -> Obj) (p : P) (e : Env) (s s1 : State) (r : Z) :
  CreateProperty slot store p e s = (r, s1) ->
  r = DEVICE_DUPLICATE_PROPERTY
  \/ (r = DEVICE_OK /\ self s1 = store (Some p) (self s)).
Proof.
  rewrite CreateProperty_eq.
  destruct (slot (self s)); intros [= <- <-]; [left|right]; auto.
Qed.

Lemma CreateProperty_new {P : Type} (slot : Obj -> option P)
    (store : option P -> Obj -> Obj) (p : P) (e : Env) (s s1 : State) (r : Z) :
  CreateProperty slot store p e s = (r, s1) ->
  slot (self s) = None ->
  r = DEVICE_OK /\ self s1 = store (Some p) (self s).
Proof.
  rewrite CreateProperty_eq. intros H Hs. rewrite Hs in H.
  injection H as <- <-. split; reflexivity.
Qed.

Lemma AddAllowedValue_State_inv (v : Z) (e : Env) (s s1 : State) (r : unit)
    (p : IntegerProperty) :
  AddAllowedValue_State v e s = (r, s1) ->
  prop_State (self s) = Some p ->
  self s1
  = set_prop_State
      (Some (mkIntegerProperty (ivalue p) (ilimits p) (iallowed p ++ [v])))
      (self s).
Proof.
  unfold AddAllowedValue_State, Bind, member, assign. intros H Hp.
  rewrite Hp in H. injection H as _ <-. reflexivity.
Qed.

Lemma SetPropertyLimits_Intensity_inv (lo hi : Z) (e : Env) (s s1 : State)
    (r : Z) (p : IntegerProperty) :
  SetPropertyLimits_Intensity lo hi e s = (r, s1) ->
  prop_Intensity (self s) = Some p ->
  r = DEVICE_OK
  /\ self s1
     = set_prop_Intensity
         (Some (mkIntegerProperty (ivalue p) (Some (lo, hi)) (iallowed p)))
         (self s).
Proof.
  unfold SetPropertyLimits_Intensity, Bind, member, assign, Ret. intros H Hp.
  rewrite Hp in H. injection H as <- <-. split; reflexivity.
Qed.

Lemma ilimits_Set_long_ (v : Z) (p : IntegerProperty) :
  ilimits (Set_long_ v p) = ilimits p.
Proof.
  unfold Set_long_, Set_long.
  destruct (ilimits p) as [[lo hi]|] eqn:E; [destruct (_ || _)%bool|];
    cbn [ilimits]; auto.
Qed.

(** [UpdateStatus] succeeds; it refreshes the values of the properties and
    keeps the port, the State property and the limits of the intensity. *)
Lemma UpdateStatus_frame (e : Env) (s s1 : State) (r : Z) :
  UpdateStatus e s = (r, s1) ->
  r = DEVICE_OK
  /\ port_ (self s1) = port_ (self s)
  /\ prop_State (self s1) = prop_State (self s)
  /\ (forall p, prop_Intensity (self s) = Some p ->
        exists p', prop_Intensity (self s1) = Some p' /\ ilimits p' = ilimits p).
Proof.
  destruct s as [[ini port ct i cur dl ud pP pS pD pI] tr].
  unfold UpdateStatus, Update, Execute, OnDelay, OnIntensity, OnPort, OnState,
    GetDelayMs, Bind, Ret, member, assign.
  destruct pD as [pD|], pI as [pI|], pP as [pP|], pS as [pS|];
    cbn -[Set_long_]; intros [= <- <-]; cbn -[Set_long_];
    (split; [reflexivity|]); (split; [reflexivity|]); (split; [reflexivity|]);
    intros p [= <-] || (intros p; discriminate).
  all: eexists; (split; [reflexivity|]); apply ilimits_Set_long_.
Qed.

(** What [Initialize] leaves when it returns [DEVICE_OK]: the controller is
    initialised, on the same port, the intensity has the limits 1 and 100,
    and the State property takes 0 and 1. *)
Lemma Initialize_ok (e : Env) (s s' : State) :
  Initialize d0 e s = (DEVICE_OK, s') ->
  initialized_ (self s') = true
  /\ port_ (self s') = port_ (self s)
  /\ (exists p, prop_Intensity (self s') = Some p /\ ilimits p = Some (1, 100))
  /\ (exists q, prop_State (self s') = Some q
                /\ ilimits q = None /\ iallowed q = [0; 1]).
Proof.
  unfold Initialize. intros H.
  (* the State property and its allowed values *)
  bind_inv H as r1 s1 E. apply CreateProperty_inv in E as [->|[-> E1]]; [discriminate|].
  cbn [failed negb Z.eqb DEVICE_OK] in H.
  assert (S1 : prop_State (self s1) = Some (mkIntegerProperty 0 None []))
    by (rewrite E1; reflexivity).
  bind_inv H as u2 s2 E. apply (AddAllowedValue_State_inv _ _ _ E) in S1 as E2. clear E.
  assert (S2 : prop_State (self s2) = Some (mkIntegerProperty 0 None [0]))
    by (rewrite E2; reflexivity).
  bind_inv H as u3 s3 E. apply (AddAllowedValue_State_inv _ _ _ E) in S2 as E3. clear E.
  assert (S3 : prop_State (self s3) = Some (mkIntegerProperty 0 None [0; 1]))
    by (rewrite E3; reflexivity).
  (* Delay and Intensity *)
  bind_inv H as r4 s4 E. apply CreateProperty_inv in E as [->|[-> E4]]; [discriminate|].
  cbn [failed negb Z.eqb DEVICE_OK] in H.
  bind_inv H as r5 s5 E. apply CreateProperty_inv in E as [->|[-> E5]]; [discriminate|].
  cbn [failed negb Z.eqb DEVICE_OK] in H.
  assert (I5 : prop_Intensity (self s5) = Some (mkIntegerProperty 100 None []))
    by (rewrite E5; reflexivity).
  bind_inv H as r6 s6 E.
  apply (SetPropertyLimits_Intensity_inv _ _ _ _ E) in I5 as [-> E6]. clear E.
  cbn [failed negb Z.eqb DEVICE_OK] in H.
  assert (I6 : prop_Intensity (self s6)
               = Some (mkIntegerProperty 100 (Some (1, 100)) []))
    by (rewrite E6; reflexivity).
  assert (S6 : prop_State (self s6) = Some (mkIntegerProperty 0 None [0; 1])).
  { rewrite E6; members. rewrite E5; members. rewrite E4; members. exact S3. }
  assert (P6 : port_ (self s6) = port_ (self s)).
  { rewrite E6; members. rewrite E5; members. rewrite E4; members.
    rewrite E3; members. rewrite E2; members. rewrite E1; reflexivity. }
  clear E1 E2 E3 E4 E5 E6 S1 S2 S3.
  (* the status update and the first command *)
  bind_inv H as r7 s7 E. apply UpdateStatus_frame in E. destruct E as (-> & EP & ES & EI).
  cbn [failed negb Z.eqb DEVICE_OK] in H.
  bind_inv H as cur s8 E. unfold member in E. injection E as <- <-.
  bind_inv H as r9 s9 E.
  set (v := if curState_ (self s7) then 1 else 0) in *.
  assert (Ht : take_long v (mkIntegerProperty 0 None [0; 1])
               = Some (mkIntegerProperty v None [0; 1])).
  { unfold v. destruct (curState_ (self s7)); reflexivity. }
  rewrite S6 in ES.
  pose proof (SetProperty_State_self v e s7 ES Ht) as Hs.
  rewrite E in Hs. cbn [snd] in Hs.
  unfold GetCurrentMMTime, ask, assign, Bind, Ret in H.
  injection H as <-. cbn [self]. rewrite Hs. members.
  split; [reflexivity|]. split; [congruence|]. split.
  - destruct (EI _ I6) as (p' & Hp' & Hl). exists p'. split; assumption.
  - eexists. split; [reflexivity|]. split; reflexivity.
Qed.

(** [Initialize] succeeds when the properties it creates are new, whatever
    the serial port answers to its first command. *)
Lemma Initialize_succeeds (e : Env) (s : State) :
  prop_State (self s) = None ->
  prop_Delay (self s) = None ->
  prop_Intensity (self s) = None ->
  fst (Initialize d0 e s) = DEVICE_OK.
Proof.
  intros HS HD HI. unfold Initialize.
  bind_step r1 s1 E. apply CreateProperty_new in E as [-> E1]; [|exact HS].
  cbn [failed negb Z.eqb DEVICE_OK].
  assert (S1 : prop_State (self s1) = Some (mkIntegerProperty 0 None []))
    by (rewrite E1; reflexivity).
  bind_step u2 s2 E. apply (AddAllowedValue_State_inv _ _ _ E) in S1 as E2. clear E.
  assert (S2 : prop_State (self s2) = Some (mkIntegerProperty 0 None [0]))
    by (rewrite E2; reflexivity).
  bind_step u3 s3 E. apply (AddAllowedValue_State_inv _ _ _ E) in S2 as E3. clear E.
  assert (D3 : prop_Delay (self s3) = None).
  { rewrite E3; members. rewrite E2; members. rewrite E1; members. exact HD. }
  assert (I3 : prop_Intensity (self s3) = None).
  { rewrite E3; members. rewrite E2; members. rewrite E1; members. exact HI. }
  bind_step r4 s4 E. apply CreateProperty_new in E as [-> E4]; [|exact D3].
  cbn [failed negb Z.eqb DEVICE_OK].
  assert (I4 : prop_Intensity (self s4) = None)
    by (rewrite E4; members; exact I3).
  bind_step r5 s5 E. apply CreateProperty_new in E as [-> E5]; [|exact I4].
  cbn [failed negb Z.eqb DEVICE_OK].
  assert (I5 : prop_Intensity (self s5) = Some (mkIntegerProperty 100 None []))
    by (rewrite E5; reflexivity).
  bind_step r6 s6 E.
  destruct (SetPropertyLimits_Intensity_inv _ _ _ _ E I5) as [Hr E6].
  clear E. subst r6.
  cbn [failed negb Z.eqb DEVICE_OK].
  bind_step r7 s7 E. apply UpdateStatus_frame in E. destruct E as (-> & _).
  cbn [failed negb Z.eqb DEVICE_OK].
  unfold Bind, member, GetCurrentMMTime, ask, assign, Ret.
  destruct (SetProperty_State _ e _). reflexivity.
Qed.

Lemma Initialize_new (e : Env) :
  fst (Initialize d0 e (mkSt (new_AndorAMH d0 MMTime_of_double) [])) = DEVICE_OK.
Proof.
  apply Initialize_succeeds; reflexivity.
Qed.

(** [Shutdown] of an initialised controller sends a close command; the
    controller stays initialised when that command fails. *)
Lemma Shutdown_initialized (e : Env) (s : State) :
  initialized_ (self s) = true ->
  initialized_ (self (snd (Shutdown e s)))
  = failed (fst (SetShutterPosition false e s)).
Proof.
  intros Hi. unfold Shutdown, Bind, member, assign, Ret. rewrite Hi.
  pose proof (SetShutterPosition_self false e s) as Hs.
  destruct (SetShutterPosition false e s) as [r s2]. cbn [fst snd] in *.
  destruct (failed r); cbn [snd self]; [|reflexivity].
  rewrite Hs. exact Hi.
Qed.

(** ** The command cycle, case by case *)

(** The whole outcome of a cycle: return code, object and calls made. *)
Lemma SetShutterPosition_eq (state : bool) (e : Env) (s : State) :
  SetShutterPosition state e s
  = let p := port_ (self s) in
    let cmd := ("LIGHT," ++ ostream_long (if state then intensity_ (self s) else 0))%string in
    let a := answer_text e in
    let t3 := (trace s ++ [EvPurge p; EvSend p cmd CR; EvAnswer p CR])%list in
    if failed (purge_result e) then
      (purge_result e, mkSt (self s) (trace s ++ [EvPurge p]))
    else if failed (send_result e) then
      (send_result e, mkSt (self s) (trace s ++ [EvPurge p; EvSend p cmd CR]))
    else if failed (answer_result e) then
      (answer_result e, mkSt (self s) t3)
    else if compare_eq (substr 0 1 a) "R" then
      (DEVICE_OK, mkSt (set_changedTime_ (clock e) (self s)) t3)
    else if (compare_eq (substr 0 1 a) "E" && Nat.ltb 2 (String.length a))%bool then
      (int_add ERR_OFFSET (atoi (substr_from 2 a)),
       mkSt (set_changedTime_ (clock e) (self s))
         (t3 ++ [EvLog ("Error in received answer, giving code: "
                        ++ lexical_cast (atoi (substr_from 2 a))) true]))
    else (DEVICE_OK, mkSt (set_changedTime_ (clock e) (self s)) t3).
Proof.
  cbv zeta. run.
  destruct (failed (purge_result e)); cbn [fst snd self trace]; [reflexivity|].
  destruct (failed (send_result e)); cbn [fst snd self trace];
    [rewrite <- List.app_assoc; reflexivity|].
  destruct (failed (answer_result e)); cbn [fst snd self trace];
    [rewrite <- !List.app_assoc; reflexivity|].
  destruct (compare_eq _ _); [rewrite <- !List.app_assoc; reflexivity|].
  destruct (_ && _)%bool; cbn [fst snd self trace];
    rewrite <- !List.app_assoc; reflexivity.
Qed.

Lemma failed_iff (r : Z) : failed r = true <-> r <> DEVICE_OK.
Proof.
  unfold failed. destruct (Z.eqb_spec r DEVICE_OK); cbn; split; congruence.
Qed.

Lemma failed_ok : failed DEVICE_OK = false.
Proof.
  reflexivity.
Qed.

(** X1: when the purge fails, the cycle returns the purge's code at once:
    it sends nothing, waits for no answer, and leaves the object as it is. *)
Theorem purge_failure_aborts (state : bool) (e : Env) (s : State) :
  purge_result e <> DEVICE_OK ->
  SetShutterPosition state e s
  = (purge_result e,
     mkSt (self s) (trace s ++ [EvPurge (port_ (self s))])).
Proof.
  intros Hp. rewrite SetShutterPosition_eq. cbv zeta.
  apply failed_iff in Hp. rewrite Hp. reflexivity.
Qed.

(** X2: when the purge succeeds and the send fails, the cycle returns the
    send's code: it has purged and sent on the stored port, waits for no
    answer, and leaves the object as it is. *)
Theorem send_failure_aborts (state : bool) (e : Env) (s : State) :
  purge_result e = DEVICE_OK ->
  send_result e <> DEVICE_OK ->
  SetShutterPosition state e s
  = (send_result e,
     mkSt (self s)
       (trace s
        ++ [EvPurge (port_ (self s));
            EvSend (port_ (self s))
              ("LIGHT," ++ ostream_long (if state then intensity_ (self s) else 0))
              CR])).
Proof.
  intros Hp Hs. rewrite SetShutterPosition_eq. cbv zeta.
  apply failed_iff in Hs. rewrite Hp, failed_ok, Hs. reflexivity.
Qed.

(** X3: when purge and send succeed and the wait for the answer fails (a
    time-out), the cycle returns that code, logs nothing and leaves the
    object as it is: the time stamp of the busy signal is not refreshed. *)
Theorem answer_failure_aborts (state : bool) (e : Env) (s : State) :
  purge_result e = DEVICE_OK ->
  send_result e = DEVICE_OK ->
  answer_result e <> DEVICE_OK ->
  SetShutterPosition state e s
  = (answer_result e,
     mkSt (self s)
       (trace s
        ++ [EvPurge (port_ (self s));
            EvSend (port_ (self s))
              ("LIGHT," ++ ostream_long (if state then intensity_ (self s) else 0))
              CR;
            EvAnswer (port_ (self s)) CR])).
Proof.
  intros Hp Hs Ha. rewrite SetShutterPosition_eq. cbv zeta.
  apply failed_iff in Ha. rewrite Hp, Hs, failed_ok, Ha. reflexivity.
Qed.

Lemma transport_ok_inv (e : Env) :
  transport_ok e = true ->
  purge_result e = DEVICE_OK /\ send_result e = DEVICE_OK
  /\ answer_result e = DEVICE_OK.
Proof.
  unfold transport_ok. intros H.
  apply andb_true_iff in H. destruct H as [H Ha].
  apply andb_true_iff in H. destruct H as [Hp Hs].
  repeat split; apply Z.eqb_eq; assumption.
Qed.

(** The calls of a complete round trip. *)
Lemma round_trip_trace (state : bool) (e : Env) (s : State) :
  transport_ok e = true ->
  trace (snd (SetShutterPosition state e s))
  = (trace s
     ++ [EvPurge (port_ (self s));
         EvSend (port_ (self s))
           ("LIGHT," ++ ostream_long (if state then intensity_ (self s) else 0))%string
           CR;
         EvAnswer (port_ (self s)) CR]
     ++ (if (compare_eq (substr 0 1 (answer_text e)) "E"
             && Nat.ltb 2 (String.length (answer_text e)))%bool
         then [EvLog ("Error in received answer, giving code: "
                      ++ ostream_long (atoi (substr_from 2 (answer_text e))))%string
                 true]
         else []))%list.
Proof.
  intros Hok. destruct (transport_ok_inv e Hok) as (Hp & Hs & Ha).
  rewrite SetShutterPosition_eq. cbv zeta. rewrite Hp, Hs, Ha, failed_ok.
  destruct (answer_text e) as [|c r].
  - cbn [compare_eq substr String.substring String.eqb andb snd trace app].
    reflexivity.
  - unfold compare_eq, substr. cbn [String.substring].
    replace (String.substring 0 0 r) with EmptyString by (destruct r; reflexivity).
    cbn [String.eqb].
    destruct (Ascii.eqb_spec c "R") as [->|HR]; [reflexivity|].
    destruct (Ascii.eqb_spec c "E") as [->|HE]; cbn [andb]; [|reflexivity].
    destruct (Nat.ltb _ _); cbn [snd trace]; unfold lexical_cast;
      rewrite <- ?List.app_assoc; reflexivity.
Qed.

(** X4: a complete round trip makes its calls in this order, all on the
    stored port and with a carriage return as terminator: purge, send the
    command, wait for the answer; it writes one line to the log, with the
    device's code in decimal, exactly when the reply is an error reply (it
    starts with ['E'] and is longer than 2). *)
Theorem round_trip_calls (state : bool) (e : Env) (s : State) :
  transport_ok e = true ->
  trace (snd (SetShutterPosition state e s))
  = (trace s
     ++ [EvPurge (port_ (self s));
         EvSend (port_ (self s))
           ("LIGHT," ++ ostream_long (if state then intensity_ (self s) else 0))%string
           CR;
         EvAnswer (port_ (self s)) CR]
     ++ (if (compare_eq (substr 0 1 (answer_text e)) "E"
             && Nat.ltb 2 (String.length (answer_text e)))%bool
         then [EvLog ("Error in received answer, giving code: "
                      ++ ostream_long (atoi (substr_from 2 (answer_text e))))%string
                 true]
         else []))%list.
Proof.
  exact (round_trip_trace state e s).
Qed.

(** The return code of a cycle depends on the answers of the serial port
    only. *)
Lemma SetShutterPosition_ret_env (state state' : bool) (e : Env) (s s' : State) :
  fst (SetShutterPosition state e s) = fst (SetShutterPosition state' e s').
Proof.
  rewrite !SetShutterPosition_eq. cbv zeta.
  destruct (failed (purge_result e)); [reflexivity|].
  destruct (failed (send_result e)); [reflexivity|].
  destruct (failed (answer_result e)); [reflexivity|].
  destruct (compare_eq _ _); [reflexivity|].
  destruct (_ && _)%bool; reflexivity.
Qed.

(** X5: a cycle never changes a member of the object other than the time
    stamp: not the cached open flag, the stored intensity, the port, the
    initialisation flag, the delay or a property. *)
Theorem cycle_keeps_members (state : bool) (e : Env) (s : State) :
  let a' := self (snd (SetShutterPosition state e s)) in
  initialized_ a' = initialized_ (self s)
  /\ port_ a' = port_ (self s)
  /\ intensity_ a' = intensity_ (self s)
  /\ curState_ a' = curState_ (self s)
  /\ delayMs_ a' = delayMs_ (self s)
  /\ usesDelay_ a' = usesDelay_ (self s)
  /\ prop_Port a' = prop_Port (self s)
  /\ prop_State a' = prop_State (self s)
  /\ prop_Delay a' = prop_Delay (self s)
  /\ prop_Intensity a' = prop_Intensity (self s).
Proof.
  cbv zeta. rewrite SetShutterPosition_self. repeat split.
Qed.

(** X6: after a complete round trip every reply that starts with ['R'] is an
    acknowledgement, whatever follows the ['R']: the cycle returns
    [DEVICE_OK], refreshes the time stamp and logs nothing. *)
Theorem reply_R_prefix_acknowledges (state : bool) (e : Env) (s : State)
    (rest : string) :
  transport_ok e = true ->
  answer_text e = String "R" rest ->
  SetShutterPosition state e s
  = (DEVICE_OK,
     mkSt (set_changedTime_ (clock e) (self s))
       (trace s
        ++ [EvPurge (port_ (self s));
            EvSend (port_ (self s))
              ("LIGHT," ++ ostream_long (if state then intensity_ (self s) else 0))
              CR;
            EvAnswer (port_ (self s)) CR])).
Proof.
  intros Hok Hr. destruct (transport_ok_inv e Hok) as (Hp & Hs & Ha).
  rewrite SetShutterPosition_eq. cbv zeta. rewrite Hp, Hs, Ha, failed_ok, Hr.
  unfold compare_eq, substr. cbn [String.substring].
  replace (String.substring 0 0 rest) with EmptyString by (destruct rest; reflexivity).
  reflexivity.
Qed.

Lemma substring_all (t : string) : String.substring 0 (String.length t) t = t.
Proof.
  induction t as [|c t IH]; [reflexivity|].
  cbn [String.length String.substring]. f_equal. exact IH.
Qed.

Lemma substr_from_2 (c1 c2 : ascii) (text : string) :
  substr_from 2 (String c1 (String c2 text)) = text.
Proof.
  unfold substr_from.
  change (String.length (String c1 (String c2 text)) - 2)%nat
    with (String.length text - 0)%nat.
  rewrite Nat.sub_0_r. cbn [String.substring]. apply substring_all.
Qed.

(** X7: the character at index 1 of an error reply is not inspected: two
    replies ['E'], any character, then the same text give the same return
    code. *)
Theorem error_reply_separator_ignored (state : bool) (e1 e2 : Env) (s : State)
    (c1 c2 : ascii) (text : string) :
  transport_ok e1 = true ->
  transport_ok e2 = true ->
  answer_text e1 = String "E" (String c1 text) ->
  answer_text e2 = String "E" (String c2 text) ->
  fst (SetShutterPosition state e1 s) = fst (SetShutterPosition state e2 s).
Proof.
  intros H1 H2 A1 A2.
  rewrite !SetShutterPosition_ret by assumption.
  rewrite A1, A2, !substr_from_2. reflexivity.
Qed.

(** ** What [atoi] accepts *)

Lemma leading_digits_uint_app (d d' : uint) (tail : string) :
  leading_digits (NilEmpty.string_of_uint d ++ tail) (Z.of_N (Unsigned.of_lu d'))
  = leading_digits tail (Z.of_N (Unsigned.of_lu (revapp d d'))).
Proof.
  revert d'.
  induction d as [|d IH|d IH|d IH|d IH|d IH|d IH|d IH|d IH|d IH|d IH];
    intro d'; [reflexivity | ..];
    cbn [NilEmpty.string_of_uint String.append leading_digits revapp];
    change (isdigit _) with true; cbv iota;
    rewrite <- IH; f_equal;
    cbn [Unsigned.of_lu];
    match goal with |- context [digit_value ?c] =>
      let v := eval vm_compute in (digit_value c) in
      change (digit_value c) with v end;
    lia.
Qed.

Lemma leading_digits_stop (tail : string) (acc : Z) :
  match tail with String d _ => isdigit d = false | EmptyString => True end ->
  leading_digits tail acc = acc.
Proof.
  destruct tail as [|d t]; [reflexivity|].
  cbn [leading_digits]. intros ->. reflexivity.
Qed.

Lemma leading_digits_uint_tail (u : uint) (tail : string) :
  match tail with String d _ => isdigit d = false | EmptyString => True end ->
  leading_digits (NilEmpty.string_of_uint u ++ tail) 0 = Z.of_uint u.
Proof.
  intros Ht. change 0 with (Z.of_N (Unsigned.of_lu Nil)).
  rewrite leading_digits_uint_app, leading_digits_stop by exact Ht.
  unfold Z.of_uint. now rewrite Unsigned.of_uint_alt.
Qed.

Lemma strtol10_digit_start (a : ascii) (r : string) :
  isdigit a = true -> strtol10 (String a r) = leading_digits (String a r) 0.
Proof.
  intros Hd. unfold strtol10.
  destruct a as [[|] [|] [|] [|] [|] [|] [|] [|]]; try discriminate Hd; reflexivity.
Qed.

Lemma string_of_uint_digit_start (u : uint) :
  u <> Nil ->
  exists a r, NilEmpty.string_of_uint u = String a r /\ isdigit a = true.
Proof.
  destruct u; [congruence | ..]; intros _; eexists; eexists; split; reflexivity.
Qed.

(** [strtol] reads a number written in decimal back, and stops at the first
    character after it that is not a digit. *)
Lemma strtol10_ostream_long (n : Z) (tail : string) :
  match tail with String d _ => isdigit d = false | EmptyString => True end ->
  strtol10 (ostream_long n ++ tail) = n.
Proof.
  intros Ht. unfold ostream_long. destruct n as [|p|p]; cbn [Z.to_int NilZero.string_of_int].
  - cbn [NilZero.string_of_uint NilEmpty.string_of_uint String.append].
    rewrite strtol10_digit_start by reflexivity.
    cbn [leading_digits]. change (isdigit "0") with true. cbv iota.
    apply leading_digits_stop. exact Ht.
  - pose proof (Unsigned.to_uint_nonnil p) as Hn.
    replace (NilZero.string_of_uint (Pos.to_uint p))
      with (NilEmpty.string_of_uint (Pos.to_uint p))
      by (destruct (Pos.to_uint p); [congruence | reflexivity ..]).
    destruct (string_of_uint_digit_start Hn) as (a & r & Hs & Ha).
    assert (E : strtol10 (NilEmpty.string_of_uint (Pos.to_uint p) ++ tail)
                = leading_digits (NilEmpty.string_of_uint (Pos.to_uint p) ++ tail) 0).
    { rewrite Hs. cbn [String.append]. apply strtol10_digit_start. exact Ha. }
    rewrite E, leading_digits_uint_tail by exact Ht.
    unfold Z.of_uint. rewrite Unsigned.of_to. reflexivity.
  - pose proof (Unsigned.to_uint_nonnil p) as Hn.
    replace (NilZero.string_of_uint (Pos.to_uint p))
      with (NilEmpty.string_of_uint (Pos.to_uint p))
      by (destruct (Pos.to_uint p); [congruence | reflexivity ..]).
    cbn [String.append].
    change (strtol10 (String "-" ?x)) with (- leading_digits x 0).
    rewrite leading_digits_uint_tail by exact Ht.
    unfold Z.of_uint. rewrite Unsigned.of_to. reflexivity.
Qed.

Lemma skip_space_app (ws x : string) :
  skip_space ws = EmptyString -> skip_space (ws ++ x) = skip_space x.
Proof.
  induction ws as [|c ws IH]; [reflexivity|].
  cbn [skip_space String.append]. destruct (isspace c); [exact IH | discriminate].
Qed.

Lemma strtol10_skip_space (ws x : string) :
  skip_space ws = EmptyString -> strtol10 (ws ++ x) = strtol10 x.
Proof.
  intros H. unfold strtol10. rewrite (@skip_space_app ws x H). reflexivity.
Qed.

Lemma ostream_long_nonempty (n : Z) : ostream_long n <> EmptyString.
Proof.
  unfold ostream_long. destruct n as [|p|p]; cbn [Z.to_int NilZero.string_of_int];
    try discriminate.
  pose proof (Unsigned.to_uint_nonnil p) as Hn.
  destruct (Pos.to_uint p); [congruence | discriminate ..].
Qed.

(** X8: the device's code is read the way [atoi] reads: white space before
    the number and any text after it that does not start with a digit are
    passed over.  An error reply ['E'], one character, white space, the
    decimal rendering of [n], then such a text, makes the cycle return
    [ERR_OFFSET + n], when that sum is an [int]. *)
Theorem error_reply_number_lenient (state : bool) (e : Env) (s : State)
    (c : ascii) (ws tail : string) (n : Z) :
  transport_ok e = true ->
  answer_text e = String "E" (String c (ws ++ ostream_long n ++ tail)) ->
  skip_space ws = EmptyString ->
  match tail with String d _ => isdigit d = false | EmptyString => True end ->
  INT_MIN <= n ->
  ERR_OFFSET + n <= INT_MAX ->
  fst (SetShutterPosition state e s) = ERR_OFFSET + n.
Proof.
  intros Hok Ha Hws Ht Hmin Hmax.
  rewrite SetShutterPosition_ret by exact Hok.
  rewrite Ha, substr_from_2.
  assert (Hlen : Nat.ltb 2 (String.length
                   (String "E" (String c (ws ++ ostream_long n ++ tail)))) = true).
  { destruct (ws ++ ostream_long n ++ tail)%string as [|a r] eqn:E; [|reflexivity].
    exfalso. destruct ws; [|discriminate E]. cbn [String.append] in E.
    pose proof (ostream_long_nonempty n) as Hn.
    destruct (ostream_long n); [congruence | discriminate E]. }
  rewrite Hlen.
  change (compare_eq (substr 0 1 (String "E" ?x)) "R") with false.
  change (compare_eq (substr 0 1 (String "E" ?x)) "E") with true.
  cbn [andb]. unfold atoi, strtol.
  rewrite (@strtol10_skip_space ws _ Hws), (@strtol10_ostream_long n tail Ht).
  replace (Z.max LONG_MIN (Z.min LONG_MAX n)) with n
    by (unfold ERR_OFFSET, LONG_MIN, LONG_MAX, INT_MIN, INT_MAX in *; lia).
  unfold int_add. rewrite (@to_int_id n), to_int_id;
    unfold ERR_OFFSET, INT_MIN, INT_MAX in *; lia.
Qed.

(** ** The handlers *)

(** Every cycle starts with the purge of the stored port. *)
Lemma SetShutterPosition_purges_first (state : bool) (e : Env) (s : State) :
  exists rest,
    trace (snd (SetShutterPosition state e s))
    = (trace s ++ EvPurge (port_ (self s)) :: rest)%list.
Proof.
  rewrite SetShutterPosition_eq. cbv zeta.
  destruct (failed (purge_result e)); [eexists; reflexivity|].
  destruct (failed (send_result e)); [eexists; reflexivity|].
  destruct (failed (answer_result e)); [eexists; reflexivity|].
  destruct (compare_eq _ _); [eexists; reflexivity|].
  destruct (_ && _)%bool; cbn [snd trace]; [|eexists; reflexivity].
  rewrite <- List.app_assoc. eexists. reflexivity.
Qed.

(** X9: a new value of the State property always runs a command cycle, also
    when it asks for the state the shutter is in: the cached flag becomes
    the requested state (open for any value other than 0), the stored port
    is purged, and unless that purge fails exactly one command is sent,
    "LIGHT," with the stored intensity to open and "LIGHT,0" to close.  The
    property is left as it is and the return code is the one of the
    cycle. *)
Theorem OnState_issues_command (pProp : IntegerProperty) (e : Env) (s : State) :
  let r := OnState pProp AfterSet e s in
  let open := negb (ivalue pProp =? 0) in
  fst (fst r) = pProp
  /\ snd (fst r) = fst (SetShutterPosition open e s)
  /\ curState_ (self (snd r)) = open
  /\ (exists rest,
        trace (snd r) = (trace s ++ EvPurge (port_ (self s)) :: rest)%list)
  /\ sent_commands (trace (snd r))
     = (sent_commands (trace s)
        ++ (if failed (purge_result e) then []
            else [("LIGHT," ++ ostream_long (if open then intensity_ (self s) else 0))%string]))%list.
Proof.
  cbv zeta. rewrite OnState_AfterSet. cbv zeta. cbn [fst snd].
  replace (if ivalue pProp =? 0 then false else true)
    with (negb (ivalue pProp =? 0)) by (destruct (ivalue pProp =? 0); reflexivity).
  split; [reflexivity|]. split; [apply SetShutterPosition_ret_env|]. split.
  - rewrite SetShutterPosition_self. reflexivity.
  - split.
    + exact (SetShutterPosition_purges_first _ e
               (mkSt (set_curState_ (negb (ivalue pProp =? 0)) (self s)) (trace s))).
    + rewrite SetShutterPosition_sent. reflexivity.
Qed.

(** X10: reading is free of effects: called for any action other than
    [AfterSet], no handler changes the object or makes a call on the serial
    port, and each returns [DEVICE_OK]. *)
Theorem handlers_only_act_after_set (eAct : ActionType) (e : Env) (s : State)
    (pi : IntegerProperty) (ps : StringProperty) (pf : FloatProperty double) :
  eAct <> AfterSet ->
  (snd (OnState pi eAct e s) = s /\ snd (fst (OnState pi eAct e s)) = DEVICE_OK)
  /\ (snd (OnPort ps eAct e s) = s /\ snd (fst (OnPort ps eAct e s)) = DEVICE_OK)
  /\ (snd (OnDelay pf eAct e s) = s /\ snd (fst (OnDelay pf eAct e s)) = DEVICE_OK)
  /\ (snd (OnIntensity pi eAct e s) = s
      /\ snd (fst (OnIntensity pi eAct e s)) = DEVICE_OK).
Proof.
  intros H. destruct eAct; try congruence; repeat split.
Qed.

Lemma OnIntensity_AfterSet (pProp : IntegerProperty) (e : Env) (s : State) :
  OnIntensity pProp AfterSet e s
  = let s0 := mkSt (set_intensity_ (ivalue pProp) (self s)) (trace s) in
    if curState_ (self s) then
      ((pProp, fst (SetShutterPosition true e s0)),
       snd (SetShutterPosition true e s0))
    else ((pProp, DEVICE_OK), s0).
Proof.
  unfold OnIntensity, Bind, Ret, member, assign.
  cbn [self trace curState_ set_intensity_].
  destruct (curState_ (self s)); [|reflexivity].
  destruct (SetShutterPosition true e _) as [r s2]. reflexivity.
Qed.

(** X11: while the shutter is closed a new intensity is only stored: nothing
    is sent, and the handler returns [DEVICE_OK]. *)
Theorem OnIntensity_closed_stores (pProp : IntegerProperty) (e : Env) (s : State) :
  curState_ (self s) = false ->
  OnIntensity pProp AfterSet e s
  = ((pProp, DEVICE_OK), mkSt (set_intensity_ (ivalue pProp) (self s)) (trace s)).
Proof.
  intros Hc. rewrite OnIntensity_AfterSet. cbv zeta. rewrite Hc. reflexivity.
Qed.

(** X12: while the shutter is open a new intensity is stored and sent at
    once in an open command; the return code is the one of that cycle, and
    the new intensity stays stored also when the cycle fails. *)
Theorem OnIntensity_open_resends (pProp : IntegerProperty) (e : Env) (s : State) :
  curState_ (self s) = true ->
  let r := OnIntensity pProp AfterSet e s in
  intensity_ (self (snd r)) = ivalue pProp
  /\ curState_ (self (snd r)) = true
  /\ snd (fst r) = fst (SetShutterPosition true e s)
  /\ sent_commands (trace (snd r))
     = (sent_commands (trace s)
        ++ (if failed (purge_result e) then []
            else [("LIGHT," ++ ostream_long (ivalue pProp))%string]))%list.
Proof.
  intros Hc. cbv zeta. rewrite OnIntensity_AfterSet. cbv zeta. rewrite Hc.
  cbn [fst snd]. rewrite SetShutterPosition_self, SetShutterPosition_sent.
  repeat split; try assumption. apply SetShutterPosition_ret_env.
Qed.

(** X13: the intensity read back is the one written: after a new intensity
    was handled, whatever became of the command, the handler puts that
    intensity into a property that takes it. *)
Theorem OnIntensity_round_trip (p q : IntegerProperty) (e e' : Env) (s : State) :
  match ilimits q with
  | Some (lo, hi) => lo <= ivalue p <= hi
  | None => True
  end ->
  ivalue (fst (fst (OnIntensity q BeforeGet e'
                      (snd (OnIntensity p AfterSet e s)))))
  = ivalue p.
Proof.
  intros Hl.
  assert (Hi : intensity_ (self (snd (OnIntensity p AfterSet e s))) = ivalue p).
  { rewrite OnIntensity_AfterSet. cbv zeta.
    destruct (curState_ (self s)); cbn [snd]; [|reflexivity].
    rewrite SetShutterPosition_self. reflexivity. }
  unfold OnIntensity at 1. unfold Bind, member, Ret. cbn [fst]. rewrite Hi.
  unfold Set_long_, Set_long.
  destruct (ilimits q) as [[lo hi]|]; [|reflexivity].
  replace ((ivalue p <? lo) || (hi <? ivalue p))%bool with false; [reflexivity|].
  symmetry. apply orb_false_iff. split; apply Z.ltb_ge; lia.
Qed.

(** X14: a new delay is stored without a call on the serial port, is the
    delay read back, and is the delay [Busy] uses from then on. *)
Theorem OnDelay_takes_effect (p q : FloatProperty double) (e e' : Env) (s : State) :
  let s1 := snd (OnDelay p AfterSet e s) in
  fst (OnDelay p AfterSet e s) = (p, DEVICE_OK)
  /\ trace s1 = trace s
  /\ fvalue (fst (fst (OnDelay q BeforeGet e' s1))) = fvalue p
  /\ (fst (Busy d1000 dmul MMTime_of_double e' s1) = true
      <-> clock e' - changedTime_ (self s)
          < MMTime_of_double (dmul (fvalue p) d1000)).
Proof.
  cbv zeta. unfold OnDelay, Busy. run. cbn [delayMs_ set_delayMs_ changedTime_ fvalue].
  repeat split; try reflexivity.
  - destruct (Z.ltb_spec (clock e' - changedTime_ (self s))
                (MMTime_of_double (dmul (fvalue p) d1000))); cbn [fst];
      [trivial | discriminate].
  - intros H. apply Z.ltb_lt in H. rewrite H. reflexivity.
Qed.

(** ** The busy signal *)

Lemma Busy_eq (e : Env) (s : State) :
  Busy d1000 dmul MMTime_of_double e s
  = (clock e - changedTime_ (self s)
       <? MMTime_of_double (dmul (delayMs_ (self s)) d1000), s).
Proof.
  unfold Busy. run. destruct (_ <? _); reflexivity.
Qed.

(** X15: the busy window starts at the command: after a complete round
    trip at time [clock e], whatever the reply, [Busy] at a later reading
    [clock e'] is true exactly when less than the delay has passed since. *)
Theorem busy_window_starts_at_command (state : bool) (e e' : Env) (s : State) :
  transport_ok e = true ->
  fst (Busy d1000 dmul MMTime_of_double e' (snd (SetShutterPosition state e s)))
  = (clock e' - clock e <? MMTime_of_double (dmul (delayMs_ (self s)) d1000)).
Proof.
  intros Hok. rewrite Busy_eq. cbn [fst].
  rewrite SetShutterPosition_self, Hok. reflexivity.
Qed.

(** X16: once the controller is no longer busy it stays so until the next
    command: at a later clock reading [Busy] is still false. *)
Theorem Busy_stays_false (e e' : Env) (s : State) :
  clock e <= clock e' ->
  fst (Busy d1000 dmul MMTime_of_double e s) = false ->
  fst (Busy d1000 dmul MMTime_of_double e' s) = false.
Proof.
  rewrite !Busy_eq. cbn [fst]. intros Hle H.
  apply Z.ltb_ge in H. apply Z.ltb_ge. lia.
Qed.


(** ** Initialisation, step by step *)

Lemma same_members_refl (a : Obj) : same_members a a.
Proof.
  repeat split.
Qed.

Lemma same_members_trans (a b c : Obj) :
  same_members a b -> same_members b c -> same_members a c.
Proof.
  unfold same_members.
  intros (a1 & a2 & a3 & a4 & a5 & a6) (b1 & b2 & b3 & b4 & b5 & b6).
  repeat split; congruence.
Qed.

Lemma same_members_eq (a b c : Obj) :
  a = b -> same_members b c -> same_members a c.
Proof.
  intros ->. trivial.
Qed.

Lemma same_members_set_prop_State (v : option IntegerProperty) (a : Obj) :
  same_members (set_prop_State v a) a.
Proof.
  repeat split.
Qed.

Lemma same_members_set_prop_Delay (v : option (FloatProperty double)) (a : Obj) :
  same_members (set_prop_Delay v a) a.
Proof.
  repeat split.
Qed.

Lemma same_members_set_prop_Intensity (v : option IntegerProperty) (a : Obj) :
  same_members (set_prop_Intensity v a) a.
Proof.
  repeat split.
Qed.

Lemma CreateProperty_run {P : Type} (slot : Obj -> option P)
    (store : option P -> Obj -> Obj) (p : P) (e : Env) (s s1 : State) (r : Z) :
  CreateProperty slot store p e s = (r, s1) ->
  (r = DEVICE_DUPLICATE_PROPERTY /\ s1 = s /\ slot (self s) <> None)
  \/ (r = DEVICE_OK /\ self s1 = store (Some p) (self s) /\ trace s1 = trace s).
Proof.
  rewrite CreateProperty_eq.
  destruct (slot (self s)); intros [= <- <-]; [left|right]; repeat split.
  discriminate.
Qed.

Lemma AddAllowedValue_State_run (v : Z) (e : Env) (s s1 : State) (r : unit)
    (p : IntegerProperty) :
  AddAllowedValue_State v e s = (r, s1) ->
  prop_State (self s) = Some p ->
  self s1
  = set_prop_State
      (Some (mkIntegerProperty (ivalue p) (ilimits p) (iallowed p ++ [v])))
      (self s)
  /\ trace s1 = trace s.
Proof.
  unfold AddAllowedValue_State, Bind, member, assign. intros H Hp.
  rewrite Hp in H. injection H as _ <-. split; reflexivity.
Qed.

Lemma SetPropertyLimits_Intensity_run (lo hi : Z) (e : Env) (s s1 : State)
    (r : Z) (p : IntegerProperty) :
  SetPropertyLimits_Intensity lo hi e s = (r, s1) ->
  prop_Intensity (self s) = Some p ->
  r = DEVICE_OK
  /\ self s1
     = set_prop_Intensity
         (Some (mkIntegerProperty (ivalue p) (Some (lo, hi)) (iallowed p)))
         (self s)
  /\ trace s1 = trace s.
Proof.
  unfold SetPropertyLimits_Intensity, Bind, member, assign, Ret. intros H Hp.
  rewrite Hp in H. injection H as <- <-. repeat split.
Qed.

(** [UpdateStatus] makes no call and changes no data member; it leaves the
    State property as it is and puts the stored intensity into the Intensity
    property. *)
Lemma UpdateStatus_run (e : Env) (s s1 : State) (r : Z) :
  UpdateStatus e s = (r, s1) ->
  r = DEVICE_OK
  /\ trace s1 = trace s
  /\ same_members (self s1) (self s)
  /\ prop_State (self s1) = prop_State (self s)
  /\ prop_Intensity (self s1)
     = option_map (Set_long_ (intensity_ (self s))) (prop_Intensity (self s)).
Proof.
  destruct s as [[ini port ct i cur dl ud pP pS pD pI] tr].
  unfold UpdateStatus, Update, Execute, OnDelay, OnIntensity, OnPort, OnState,
    GetDelayMs, Bind, Ret, member, assign.
  destruct pD as [pD|], pI as [pI|], pP as [pP|], pS as [pS|];
    cbn -[Set_long_]; intros [= <- <-]; cbn -[Set_long_]; repeat split.
Qed.

(** A new value of the State property that the property takes runs the
    cycle for it. *)
Lemma SetProperty_State_run (v : Z) (e : Env) (s : State) (p p1 : IntegerProperty) :
  prop_State (self s) = Some p ->
  take_long v p = Some p1 ->
  SetProperty_State v e s
  = let cur := if ivalue p1 =? 0 then false else true in
    let c := SetShutterPosition cur e
               (mkSt (set_curState_ cur (set_prop_State (Some p1) (self s)))
                  (trace s)) in
    (fst c, mkSt (set_prop_State (Some p1) (self (snd c))) (trace (snd c))).
Proof.
  intros Hp Ht. unfold SetProperty_State.
  rewrite (Execute_found _ _ _ _ _ _ _ Hp Ht).
  cbv zeta. rewrite OnState_AfterSet. cbv zeta. reflexivity.
Qed.

(** What a successful [Initialize] did: it created its properties without a
    call or a change of a data member, issued the command for the cached
    state, and then set the time stamp and the initialisation flag. *)
Lemma Initialize_inv (e : Env) (s s' : State) :
  Initialize d0 e s = (DEVICE_OK, s') ->
  exists sm : State,
    trace sm = trace s
    /\ same_members (self sm) (self s)
    /\ prop_State (self sm) = Some (mkIntegerProperty 0 None [0; 1])
    /\ prop_Intensity (self sm)
       = Some (Set_long_ (intensity_ (self s))
                 (mkIntegerProperty 100 (Some (1, 100)) []))
    /\ s' = mkSt (set_initialized_ true
                    (set_changedTime_ (clock e)
                       (self (snd (SetProperty_State
                                     (if curState_ (self s) then 1 else 0) e sm)))))
               (trace (snd (SetProperty_State
                              (if curState_ (self s) then 1 else 0) e sm))).
Proof.
  unfold Initialize. intros H.
  bind_inv H as r1 s1 E.
  apply CreateProperty_run in E as [(-> & _)|(-> & E1 & T1)]; [discriminate|].
  cbn [failed negb Z.eqb DEVICE_OK] in H.
  assert (S1 : prop_State (self s1) = Some (mkIntegerProperty 0 None []))
    by (rewrite E1; reflexivity).
  bind_inv H as u2 s2 E.
  destruct (AddAllowedValue_State_run _ _ _ E S1) as [E2 T2]. clear E.
  assert (S2 : prop_State (self s2) = Some (mkIntegerProperty 0 None [0]))
    by (rewrite E2; reflexivity).
  bind_inv H as u3 s3 E.
  destruct (AddAllowedValue_State_run _ _ _ E S2) as [E3 T3]. clear E.
  assert (S3 : prop_State (self s3) = Some (mkIntegerProperty 0 None [0; 1]))
    by (rewrite E3; reflexivity).
  assert (M3 : same_members (self s3) (self s)).
  { apply (same_members_eq E3), (same_members_trans (same_members_set_prop_State _ _)).
    apply (same_members_eq E2), (same_members_trans (same_members_set_prop_State _ _)).
    apply (same_members_eq E1), same_members_set_prop_State. }
  assert (T3' : trace s3 = trace s) by congruence.
  clear E1 E2 E3 T1 T2 T3 S1 S2.
  bind_inv H as r4 s4 E.
  apply CreateProperty_run in E as [(-> & _)|(-> & E4 & T4)]; [discriminate|].
  cbn [failed negb Z.eqb DEVICE_OK] in H.
  bind_inv H as r5 s5 E.
  apply CreateProperty_run in E as [(-> & _)|(-> & E5 & T5)]; [discriminate|].
  cbn [failed negb Z.eqb DEVICE_OK] in H.
  assert (I5 : prop_Intensity (self s5) = Some (mkIntegerProperty 100 None []))
    by (rewrite E5; reflexivity).
  bind_inv H as r6 s6 E.
  destruct (SetPropertyLimits_Intensity_run _ _ _ _ E I5) as (Hr & E6 & T6).
  clear E. subst r6. cbn [failed negb Z.eqb DEVICE_OK] in H.
  assert (I6 : prop_Intensity (self s6)
               = Some (mkIntegerProperty 100 (Some (1, 100)) []))
    by (rewrite E6; reflexivity).
  assert (S6 : prop_State (self s6) = Some (mkIntegerProperty 0 None [0; 1])).
  { rewrite E6; members. rewrite E5; members. rewrite E4; members. exact S3. }
  assert (M6 : same_members (self s6) (self s)).
  { apply (same_members_eq E6), (same_members_trans (same_members_set_prop_Intensity _ _)).
    apply (same_members_eq E5), (same_members_trans (same_members_set_prop_Intensity _ _)).
    apply (same_members_eq E4), (same_members_trans (same_members_set_prop_Delay _ _)).
    exact M3. }
  assert (T6' : trace s6 = trace s) by congruence.
  clear E4 E5 E6 T4 T5 T6 S3 M3 T3' I5.
  bind_inv H as r7 s7 E. apply UpdateStatus_run in E.
  destruct E as (-> & T7 & M7 & S7 & I7).
  cbn [failed negb Z.eqb DEVICE_OK] in H.
  bind_inv H as cur s8 E. unfold member in E. injection E as <- <-.
  bind_inv H as r9 s9 E.
  unfold GetCurrentMMTime, ask, assign, Bind, Ret in H.
  injection H as <-. cbn [self trace].
  assert (M : same_members (self s7) (self s))
    by (exact (same_members_trans M7 M6)).
  exists s7. split; [congruence|]. split; [exact M|].
  split; [congruence|]. split.
  - rewrite I7, I6. cbn [option_map].
    destruct M6 as (_ & _ & _ & -> & _). reflexivity.
  - destruct M as (_ & _ & _ & _ & <- & _). rewrite E. reflexivity.
Qed.

Lemma Initialize_result (e : Env) (s : State) :
  prop_State (self s) = None ->
  prop_Delay (self s) = None ->
  prop_Intensity (self s) = None ->
  exists sm : State,
    trace sm = trace s
    /\ same_members (self sm) (self s)
    /\ prop_State (self sm) = Some (mkIntegerProperty 0 None [0; 1])
    /\ prop_Intensity (self sm)
       = Some (Set_long_ (intensity_ (self s))
                 (mkIntegerProperty 100 (Some (1, 100)) []))
    /\ Initialize d0 e s
       = (DEVICE_OK,
          mkSt (set_initialized_ true
                  (set_changedTime_ (clock e)
                     (self (snd (SetProperty_State
                                   (if curState_ (self s) then 1 else 0) e sm)))))
            (trace (snd (SetProperty_State
                           (if curState_ (self s) then 1 else 0) e sm)))).
Proof.
  intros HS HD HI.
  pose proof (Initialize_succeeds e s HS HD HI) as Hr.
  destruct (Initialize d0 e s) as [r s'] eqn:E. cbn [fst] in Hr. subst r.
  destruct (@Initialize_inv e s s' E) as (sm & T & M & S & I & ->).
  exists sm. split; [exact T|]. split; [exact M|]. split; [exact S|].
  split; [exact I | reflexivity].
Qed.

Lemma take_long_State (cur : bool) :
  take_long (if cur then 1 else 0) (mkIntegerProperty 0 None [0; 1])
  = Some (mkIntegerProperty (if cur then 1 else 0) None [0; 1]).
Proof.
  destruct cur; reflexivity.
Qed.

(** X18: the first [Initialize] of a controller issues exactly one command,
    the one for the cached state: a close command when the shutter is cached
    as closed, an open command with the stored intensity otherwise. *)
Theorem Initialize_sends_cached_state (e : Env) (s : State) :
  prop_State (self s) = None ->
  prop_Delay (self s) = None ->
  prop_Intensity (self s) = None ->
  sent_commands (trace (snd (Initialize d0 e s)))
  = (sent_commands (trace s)
     ++ (if failed (purge_result e) then []
         else [("LIGHT,"
                ++ ostream_long (if curState_ (self s) then intensity_ (self s)
                                 else 0))%string]))%list.
Proof.
  intros HS HD HI.
  destruct (Initialize_result e s HS HD HI) as (sm & T & M & S & I & ->).
  cbn [snd trace].
  rewrite (SetProperty_State_run _ e sm S (take_long_State _)).
  cbv zeta. cbn [snd trace]. rewrite SetShutterPosition_sent.
  cbn [self trace intensity_ set_curState_ set_prop_State]. rewrite T.
  destruct M as (_ & _ & _ & -> & _).
  destruct (curState_ (self s)); reflexivity.
Qed.

(** X19: the first [Initialize] of a controller returns [DEVICE_OK], sets the
    initialisation flag and sets the time stamp to the current time whatever
    the serial port answers to its command: a failed call or an error reply
    of the device does not make it fail. *)
Theorem Initialize_ignores_command_result (e : Env) (s : State) :
  prop_State (self s) = None ->
  prop_Delay (self s) = None ->
  prop_Intensity (self s) = None ->
  fst (Initialize d0 e s) = DEVICE_OK
  /\ initialized_ (self (snd (Initialize d0 e s))) = true
  /\ changedTime_ (self (snd (Initialize d0 e s))) = clock e.
Proof.
  intros HS HD HI.
  destruct (Initialize_result e s HS HD HI) as (sm & T & M & S & I & ->).
  repeat split.
Qed.

(** X20: the first [Initialize] of a controller keeps the port, the stored
    intensity, the cached state and the delay, and leaves the properties in
    line with them: the State property takes 0 and 1 and holds the cached
    state; the Intensity property has the limits 1 and 100 and holds the
    stored intensity when that is within the limits, 100 otherwise. *)
Theorem Initialize_properties_show_members (e : Env) (s : State) :
  prop_State (self s) = None ->
  prop_Delay (self s) = None ->
  prop_Intensity (self s) = None ->
  let a' := self (snd (Initialize d0 e s)) in
  let i := intensity_ (self s) in
  port_ a' = port_ (self s)
  /\ intensity_ a' = i
  /\ curState_ a' = curState_ (self s)
  /\ delayMs_ a' = delayMs_ (self s)
  /\ prop_State a'
     = Some (mkIntegerProperty (if curState_ (self s) then 1 else 0) None [0; 1])
  /\ prop_Intensity a'
     = Some (mkIntegerProperty (if ((i <? 1) || (100 <? i))%bool then 100 else i)
               (Some (1, 100)) []).
Proof.
  intros HS HD HI. cbv zeta.
  destruct (Initialize_result e s HS HD HI) as (sm & T & M & S & I & ->).
  cbn [snd self].
  rewrite (SetProperty_State_self _ e sm S (take_long_State _)). members.
  destruct M as (_ & Mp & _ & Mi & Mc & Md).
  split; [exact Mp|]. split; [exact Mi|]. split.
  - cbn [ivalue]. rewrite <- Mc. destruct (curState_ (self sm)); reflexivity.
  - split; [exact Md|]. split; [reflexivity|].
    rewrite I. unfold Set_long_, Set_long. cbn [ilimits ivalue iallowed].
    destruct ((intensity_ (self s) <? 1) || (100 <? intensity_ (self s)))%bool;
      reflexivity.
Qed.

(** X21: [Initialize] on a controller that has its State property, as after
    an earlier [Initialize], fails with the code of the refused creation
    before any call on the serial port, and changes nothing. *)
Theorem Initialize_twice_fails (e : Env) (s : State) :
  prop_State (self s) <> None ->
  Initialize d0 e s = (DEVICE_DUPLICATE_PROPERTY, s).
Proof.
  intros HS. unfold Initialize. rewrite Bind_eq, CreateProperty_eq.
  destruct (prop_State (self s)); [reflexivity | congruence].
Qed.

(** ** Shutdown and destruction *)

Lemma Shutdown_eq (e : Env) (s : State) :
  Shutdown e s
  = if initialized_ (self s) then
      let c := SetShutterPosition false e s in
      if failed (fst c) then c
      else (DEVICE_OK, mkSt (set_initialized_ false (self (snd c))) (trace (snd c)))
    else (DEVICE_OK, s).
Proof.
  unfold Shutdown, Bind, member, assign, Ret.
  destruct (initialized_ (self s)); [|reflexivity].
  cbv zeta. destruct (SetShutterPosition false e s) as [r s2]. cbn [fst snd].
  destruct (failed r); reflexivity.
Qed.


(** [Shutdown] of a controller that is not initialised does nothing:
    it makes no call on the serial port and returns [DEVICE_OK]. *)
Theorem Shutdown_uninitialised_noop (e : Env) (s : State) :
  initialized_ (self s) = false -> Shutdown e s = (DEVICE_OK, s).
Proof.
  intros Hi. rewrite Shutdown_eq, Hi. reflexivity.
Qed.


(** X23: when the close command of [Shutdown] fails, [Shutdown] returns the
    code of the cycle and the controller stays initialised. *)
Theorem Shutdown_failure_keeps_initialised (e : Env) (s : State) :
  initialized_ (self s) = true ->
  fst (SetShutterPosition false e s) <> DEVICE_OK ->
  fst (Shutdown e s) = fst (SetShutterPosition false e s)
  /\ initialized_ (self (snd (Shutdown e s))) = true.
Proof.
  intros Hi Hc. rewrite Shutdown_eq, Hi. cbv zeta.
  apply failed_iff in Hc. rewrite Hc. split; [reflexivity|].
  rewrite SetShutterPosition_self. exact Hi.
Qed.

(** X24: [Shutdown] can be repeated: after a [Shutdown] that returned
    [DEVICE_OK], another one makes no call and returns [DEVICE_OK]. *)
Theorem Shutdown_twice (e e' : Env) (s : State) :
  fst (Shutdown e s) = DEVICE_OK ->
  Shutdown e' (snd (Shutdown e s)) = (DEVICE_OK, snd (Shutdown e s)).
Proof.
  intros H. rewrite (Shutdown_eq e' (snd (Shutdown e s))).
  replace (initialized_ (self (snd (Shutdown e s)))) with false; [reflexivity|].
  symmetry. revert H.
  rewrite Shutdown_eq. destruct (initialized_ (self s)) eqn:Hi; [|intros _; exact Hi].
  cbv zeta. destruct (failed (fst (SetShutterPosition false e s))) eqn:Hf.
  - intros H. rewrite H in Hf. discriminate Hf.
  - reflexivity.
Qed.

(** X25: the destructor, and so [DeleteDevice], closes the shutter of an
    initialised controller: it sends "LIGHT,0" (unless the purge fails);
    for a controller that is not initialised it makes no call. *)
Theorem DeleteDevice_closes (e : Env) (s : State) :
  trace (snd (DeleteDevice e s))
  = (if initialized_ (self s) then trace (snd (SetShutterPosition false e s))
     else trace s)
  /\ sent_commands (trace (snd (DeleteDevice e s)))
     = (sent_commands (trace s)
        ++ (if (initialized_ (self s) && negb (failed (purge_result e)))%bool
            then ["LIGHT,0"] else []))%list.
Proof.
  unfold DeleteDevice, destroy_AndorAMH. rewrite Bind_eq. unfold Ret. cbn [snd].
  rewrite Shutdown_eq. destruct (initialized_ (self s)); cbn [andb].
  - cbv zeta. assert (T : trace (snd (if failed (fst (SetShutterPosition false e s))
                      then SetShutterPosition false e s
                      else (DEVICE_OK,
                            mkSt (set_initialized_ false
                                    (self (snd (SetShutterPosition false e s))))
                              (trace (snd (SetShutterPosition false e s))))))
               = trace (snd (SetShutterPosition false e s)))
      by (destruct (failed _); reflexivity).
    rewrite T, SetShutterPosition_sent. split; [reflexivity|].
    destruct (failed (purge_result e)); reflexivity.
  - cbn [snd]. rewrite List.app_nil_r. split; reflexivity.
Qed.

(** ** Reading the state, creating the device *)

(** X26: [GetOpen] only reads: it makes no call on the serial port and
    leaves the object as it is, whether or not the State property exists. *)
Theorem GetOpen_only_reads (open : bool) (e : Env) (s : State) :
  snd (GetOpen open e s) = s.
Proof.
  unfold GetOpen, GetProperty_State. rewrite !Bind_eq.
  destruct (prop_State (self s)) as [p|] eqn:Hp.
  - rewrite (Execute_found _ _ _ _ _ _ _ Hp eq_refl). cbv zeta.
    cbn [OnState Ret fst snd self trace].
    rewrite !(set_prop_State_same _ Hp), St_eta.
    unfold member, Ret. cbn [fst snd]. rewrite Hp. reflexivity.
  - unfold Execute, Bind, member, Ret. cbn [fst snd]. rewrite Hp. reflexivity.
Qed.

(** X27: [CreateDevice] makes a device for the name "AndorAMH" and for no
    other name, and none for a null name; the device is a newly constructed
    controller. *)
Theorem CreateDevice_accepts_its_name (deviceName : option string) (a : Obj) :
  CreateDevice d0 MMTime_of_double deviceName = Some a
  <-> deviceName = Some g_AndorAMH /\ a = new_AndorAMH d0 MMTime_of_double.
Proof.
  unfold CreateDevice, strcmp. split.
  - destruct deviceName as [name|]; [|discriminate].
    destruct (String.compare name g_AndorAMH) eqn:Hc; try discriminate.
    intros [= <-]. apply String.compare_eq_iff in Hc. subst name. split; reflexivity.
  - intros [-> ->]. reflexivity.
Qed.

End AdapterProperties.

(** * Runs on the concrete controller *)

Example spec_decode_examples :
  spec_decode "R" = Ack /\ spec_decode "E,12" = DeviceError 12
  /\ spec_decode "E" = Malformed "E" /\ spec_decode "" = Malformed ""
  /\ spec_decode "X,5" = Malformed "X,5".
Proof.
  repeat split.
Qed.

Example atoi_examples :
  atoi "12" = 12 /\ atoi " -7x" = -7 /\ atoi "abc" = 0 /\ atoi "" = 0
  /\ ostream_long 100 = "100" /\ ostream_long 0 = "0".
Proof.
  repeat split.
Qed.

(** After [Initialize] the Intensity property shows the stored intensity,
    1, and the first open command sends it. *)
Example first_open_sends_intensity_1 :
  option_map ivalue (prop_Intensity (self ready_controller)) = Some 1
  /\ sent_commands (trace (snd (SetOpen true (acknowledging 6000) ready_controller)))
     = ["LIGHT,0"; "LIGHT,1"]%list.
Proof.
  vm_compute. split; reflexivity.
Qed.

(** The port is taken before [Initialize] and refused after one
    acknowledged open command; the port reported is the one taken. *)
Example port_locked_after_first_open :
  let s1 := snd (SetProperty_Port "COM3" (acknowledging 1) new_controller) in
  let s2 := snd (Initialize 0 (acknowledging 2) s1) in
  let s3 := snd (SetOpen true (acknowledging 3) s2) in
  let r4 := SetProperty_Port "COM4" (acknowledging 4) s3 in
  port_ (self s1) = "COM3"
  /\ fst (SetOpen true (acknowledging 3) s2) = DEVICE_OK
  /\ fst r4 = ERR_PORT_CHANGE_FORBIDDEN
  /\ port_ (self (snd r4)) = "COM3"
  /\ fst (GetProperty_Port (acknowledging 5) (snd r4)) = (DEVICE_OK, "COM3").
Proof.
  vm_compute. repeat split.
Qed.

(** With the delay at 0 the controller is not busy right after a command;
    with a delay of 10 ms it is busy until 10000 microseconds have passed. *)
Example busy_window :
  let busy t s := fst (Busy 1000 Z.mul (fun d : Z => d) (acknowledging t) s) in
  let s1 := snd (SetOpen true (acknowledging 6000) ready_controller) in
  let s2 := snd (SetProperty_Delay 10 (acknowledging 6000) s1) in
  busy 6000 s1 = false
  /\ busy 6000 s2 = true /\ busy 15999 s2 = true /\ busy 16000 s2 = false.
Proof.
  vm_compute. repeat split.
Qed.

(** A successful [Shutdown] lifts the lock on the port. *)
Example port_free_after_shutdown :
  let s1 := snd (Shutdown (acknowledging 7000) ready_controller) in
  initialized_ (self s1) = false
  /\ fst (SetProperty_Port "COM4" (acknowledging 8000) s1) = DEVICE_OK.
Proof.
  vm_compute. split; reflexivity.
Qed.

(** [strtol] holds a number beyond the range of a [long] at the end of
    that range, and [atoi] keeps the low 32 bits: the cycle returns
    [ERR_OFFSET - 1] for the code 9223372036854775808. *)
Example atoi_out_of_range :
  atoi "9223372036854775808" = -1
  /\ atoi "-9223372036854775809" = 0
  /\ atoi "99999999999" = 1215752191
  /\ fst (SetShutterPosition true (mkEnv 1 0 0 0 "E,9223372036854775808")
            new_controller) = 10099
  /\ fst (SetShutterPosition true (mkEnv 1 0 0 0 "E,99999999999")
            new_controller) = 1215762291.
Proof.
  vm_compute. repeat split.
Qed.

(** C6: the claim fails as it is worded, with the lock tied to the first
    successful command cycle.  An [Initialize] whose purge fails returns
    [DEVICE_OK] and has sent no command, yet the port is locked; and after
    an acknowledged open command a successful [Shutdown] frees the port
    again. *)
Lemma port_lock_is_not_the_first_command :
  (fst (Initialize 0 (mkEnv 5000 1 0 0 "") new_controller) = DEVICE_OK
   /\ sent_commands
        (trace (snd (Initialize 0 (mkEnv 5000 1 0 0 "") new_controller)))
      = []%list
   /\ fst (OnPort (mkStringProperty "COM4") AfterSet (acknowledging 6000)
             (snd (Initialize 0 (mkEnv 5000 1 0 0 "") new_controller)))
      = (mkStringProperty "Andor-AMH200-FOS", ERR_PORT_CHANGE_FORBIDDEN))
  /\ (fst (SetOpen true (acknowledging 6000) ready_controller) = DEVICE_OK
      /\ fst (Shutdown (acknowledging 7000) open_controller) = DEVICE_OK
      /\ fst (OnPort (mkStringProperty "COM4") AfterSet (acknowledging 8000)
                (snd (Shutdown (acknowledging 7000) open_controller)))
         = (mkStringProperty "COM4", DEVICE_OK)
      /\ port_ (self (snd (OnPort (mkStringProperty "COM4") AfterSet
                             (acknowledging 8000)
                             (snd (Shutdown (acknowledging 7000) open_controller)))))
         = "COM4").
Proof.
  vm_compute. repeat split.
Qed.


(** C2: the claim fails.  On the initialised, closed controller an open
    command answered by the device error "E,5" returns [ERR_OFFSET + 5] and
    [GetOpen] reports open afterwards, where it reported closed before. *)
Lemma open_flag_changes_on_device_error :
  ~ (forall (s : St Z) (e : Env) (open : bool),
        transport_ok e = true ->
        (exists code, spec_decode (answer_text e) = DeviceError code)
        \/ spec_decode (answer_text e) = Malformed (answer_text e) ->
        snd (fst (GetOpen false e (snd (SetOpen open e s))))
        = snd (fst (GetOpen false e s))).
Proof.
  intros claim.
  specialize (claim ready_controller (mkEnv 9000 0 0 0 "E,5") true eq_refl
                (or_introl (ex_intro _ 5 eq_refl))).
  vm_compute in claim. discriminate claim.
Qed.

Lemma SetOpen_commits_requested_state_witness :
  curState_ (self (snd (SetOpen true (mkEnv 9000 0 0 0 "E,5") ready_controller)))
  = true
  /\ GetOpen false (acknowledging 9500)
       (snd (SetOpen true (mkEnv 9000 0 0 0 "E,5") ready_controller))
     = ((DEVICE_OK, true),
        snd (SetOpen true (mkEnv 9000 0 0 0 "E,5") ready_controller)).
Proof.
  apply (@SetOpen_commits_requested_state Z true false
           (mkEnv 9000 0 0 0 "E,5") (acknowledging 9500) ready_controller
           (mkIntegerProperty 0 None [0; 1])); reflexivity.
Defined.

Lemma command_text_witness :
  let s := mkSt (set_intensity_ 42 (self ready_controller)) [] in
  sent_commands (trace (snd (SetShutterPosition true (acknowledging 1) s)))
  = ["LIGHT,42"]%list
  /\ spec_parse_int (ostream_long 42) = Some 42
  /\ sent_commands (trace (snd (SetShutterPosition false (acknowledging 1) s)))
     = ["LIGHT,0"]%list.
Proof.
  intros s.
  apply (@command_text Z (acknowledging 1) s 42); [reflexivity | lia | reflexivity].
Defined.


Lemma port_locked_when_initialized_witness :
  (OnPort (mkStringProperty "COM4") AfterSet (acknowledging 1) ready_controller
   = ((mkStringProperty "Andor-AMH200-FOS", ERR_PORT_CHANGE_FORBIDDEN),
      ready_controller)
   /\ svalue (fst (fst (OnPort (mkStringProperty "COM4") BeforeGet (acknowledging 2)
                          (snd (OnPort (mkStringProperty "COM4") AfterSet
                                  (acknowledging 1) ready_controller)))))
      = "Andor-AMH200-FOS")
  /\ (fst (OnPort (mkStringProperty "COM4") AfterSet (acknowledging 1) new_controller)
      = (mkStringProperty "COM4", DEVICE_OK)
      /\ port_ (self (snd (OnPort (mkStringProperty "COM4") AfterSet
                             (acknowledging 1) new_controller)))
         = "COM4").
Proof.
  split.
  - apply (proj1 (@port_locked_when_initialized Z (mkStringProperty "COM4")
                    (mkStringProperty "COM4") (acknowledging 1) (acknowledging 2)
                    ready_controller)).
    reflexivity.
  - apply (proj2 (@port_locked_when_initialized Z (mkStringProperty "COM4")
                    (mkStringProperty "COM4") (acknowledging 1) (acknowledging 2)
                    new_controller)).
    reflexivity.
Defined.

Lemma intensity_out_of_range_refused_witness :
  SetProperty_Intensity 0 (acknowledging 1) ready_controller
  = (DEVICE_INVALID_PROPERTY_VALUE, ready_controller)
  /\ SetProperty_Intensity 101 (acknowledging 1) ready_controller
     = (DEVICE_INVALID_PROPERTY_VALUE, ready_controller).
Proof.
  split.
  - apply (@intensity_out_of_range_refused Z 0 (acknowledging 1) ready_controller
             (mkIntegerProperty 1 (Some (1, 100)) []));
      [reflexivity | reflexivity | left; lia].
  - apply (@intensity_out_of_range_refused Z 101 (acknowledging 1) ready_controller
             (mkIntegerProperty 1 (Some (1, 100)) []));
      [reflexivity | reflexivity | right; lia].
Defined.

(** * Runs of the further properties *)

Lemma purge_failure_aborts_witness :
  SetShutterPosition true (mkEnv 7000 1 0 0 "R") ready_controller
  = (1, mkSt (self ready_controller)
          (trace ready_controller ++ [EvPurge "Andor-AMH200-FOS"])).
Proof.
  apply (@purge_failure_aborts Z true (mkEnv 7000 1 0 0 "R") ready_controller).
  vm_compute. discriminate.
Defined.

Lemma send_failure_aborts_witness :
  SetShutterPosition true (mkEnv 7000 0 1 0 "R") ready_controller
  = (1, mkSt (self ready_controller)
          (trace ready_controller
           ++ [EvPurge "Andor-AMH200-FOS";
               EvSend "Andor-AMH200-FOS" "LIGHT,1" CR])).
Proof.
  apply (@send_failure_aborts Z true (mkEnv 7000 0 1 0 "R") ready_controller).
  - reflexivity.
  - vm_compute. discriminate.
Defined.

Lemma answer_failure_aborts_witness :
  SetShutterPosition false (mkEnv 7000 0 0 14 "") ready_controller
  = (14, mkSt (self ready_controller)
           (trace ready_controller
            ++ [EvPurge "Andor-AMH200-FOS";
                EvSend "Andor-AMH200-FOS" "LIGHT,0" CR;
                EvAnswer "Andor-AMH200-FOS" CR])).
Proof.
  apply (@answer_failure_aborts Z false (mkEnv 7000 0 0 14 "") ready_controller).
  - reflexivity.
  - reflexivity.
  - vm_compute. discriminate.
Defined.

Lemma round_trip_calls_witness :
  trace (snd (SetShutterPosition true (mkEnv 7000 0 0 0 "E,5") new_controller))
  = [EvPurge "Andor-AMH200-FOS";
     EvSend "Andor-AMH200-FOS" "LIGHT,1" CR;
     EvAnswer "Andor-AMH200-FOS" CR;
     EvLog "Error in received answer, giving code: 5" true]%list.
Proof.
  apply (@round_trip_calls Z true (mkEnv 7000 0 0 0 "E,5") new_controller).
  reflexivity.
Defined.

Lemma reply_R_prefix_acknowledges_witness :
  SetShutterPosition true (mkEnv 7000 0 0 0 "READY") new_controller
  = (DEVICE_OK,
     mkSt (set_changedTime_ 7000 (self new_controller))
       [EvPurge "Andor-AMH200-FOS";
        EvSend "Andor-AMH200-FOS" "LIGHT,1" CR;
        EvAnswer "Andor-AMH200-FOS" CR]).
Proof.
  apply (@reply_R_prefix_acknowledges Z true (mkEnv 7000 0 0 0 "READY")
           new_controller "EADY"); reflexivity.
Defined.

Lemma error_reply_separator_ignored_witness :
  fst (SetShutterPosition true (mkEnv 7000 0 0 0 "E,5") new_controller)
  = fst (SetShutterPosition true (mkEnv 7000 0 0 0 "E:5") new_controller).
Proof.
  apply (@error_reply_separator_ignored Z true (mkEnv 7000 0 0 0 "E,5")
           (mkEnv 7000 0 0 0 "E:5") new_controller "," ":" "5"); reflexivity.
Defined.

Lemma error_reply_number_lenient_witness :
  fst (SetShutterPosition true (mkEnv 7000 0 0 0 "E, 12 bad") new_controller)
  = 10112.
Proof.
  apply (@error_reply_number_lenient Z true (mkEnv 7000 0 0 0 "E, 12 bad")
           new_controller "," " " " bad" 12);
    [reflexivity | reflexivity | reflexivity | reflexivity
    | vm_compute; discriminate | vm_compute; discriminate].
Defined.

Lemma handlers_only_act_after_set_witness :
  (snd (OnState (mkIntegerProperty 1 None [0; 1]) BeforeGet (acknowledging 1)
          ready_controller) = ready_controller
   /\ snd (fst (OnState (mkIntegerProperty 1 None [0; 1]) BeforeGet
                  (acknowledging 1) ready_controller)) = DEVICE_OK)
  /\ (snd (OnPort (mkStringProperty "COM3") BeforeGet (acknowledging 1)
             ready_controller) = ready_controller
      /\ snd (fst (OnPort (mkStringProperty "COM3") BeforeGet (acknowledging 1)
                     ready_controller)) = DEVICE_OK)
  /\ (snd (OnDelay (mkFloatProperty 10) BeforeGet (acknowledging 1)
             ready_controller) = ready_controller
      /\ snd (fst (OnDelay (mkFloatProperty 10) BeforeGet (acknowledging 1)
                     ready_controller)) = DEVICE_OK)
  /\ (snd (OnIntensity (mkIntegerProperty 1 None [0; 1]) BeforeGet
             (acknowledging 1) ready_controller) = ready_controller
      /\ snd (fst (OnIntensity (mkIntegerProperty 1 None [0; 1]) BeforeGet
                     (acknowledging 1) ready_controller)) = DEVICE_OK).
Proof.
  apply (@handlers_only_act_after_set Z BeforeGet (acknowledging 1)
           ready_controller (mkIntegerProperty 1 None [0; 1])
           (mkStringProperty "COM3") (mkFloatProperty 10)).
  discriminate.
Defined.

Lemma OnIntensity_closed_stores_witness :
  OnIntensity (mkIntegerProperty 50 (Some (1, 100)) []) AfterSet
    (acknowledging 7000) ready_controller
  = ((mkIntegerProperty 50 (Some (1, 100)) [], DEVICE_OK),
     mkSt (set_intensity_ 50 (self ready_controller)) (trace ready_controller)).
Proof.
  apply (@OnIntensity_closed_stores Z (mkIntegerProperty 50 (Some (1, 100)) [])
           (acknowledging 7000) ready_controller).
  reflexivity.
Defined.

Lemma OnIntensity_open_resends_witness :
  let r := OnIntensity (mkIntegerProperty 50 (Some (1, 100)) []) AfterSet
             (mkEnv 7000 0 0 0 "E,3") open_controller in
  intensity_ (self (snd r)) = 50
  /\ curState_ (self (snd r)) = true
  /\ snd (fst r) = 10103
  /\ sent_commands (trace (snd r)) = ["LIGHT,0"; "LIGHT,1"; "LIGHT,50"]%list.
Proof.
  apply (@OnIntensity_open_resends Z (mkIntegerProperty 50 (Some (1, 100)) [])
           (mkEnv 7000 0 0 0 "E,3") open_controller).
  reflexivity.
Defined.

Lemma OnIntensity_round_trip_witness :
  ivalue (fst (fst (OnIntensity (mkIntegerProperty 1 (Some (1, 100)) []) BeforeGet
                      (acknowledging 8000)
                      (snd (OnIntensity (mkIntegerProperty 50 (Some (1, 100)) [])
                              AfterSet (mkEnv 7000 0 0 0 "E,3") open_controller)))))
  = 50.
Proof.
  apply (@OnIntensity_round_trip Z (mkIntegerProperty 50 (Some (1, 100)) [])
           (mkIntegerProperty 1 (Some (1, 100)) []) (mkEnv 7000 0 0 0 "E,3")
           (acknowledging 8000) open_controller).
  simpl. lia.
Defined.

Lemma busy_window_starts_at_command_witness :
  let s := snd (SetProperty_Delay 10 (acknowledging 6500) ready_controller) in
  fst (Busy 1000 Z.mul (fun d : Z => d) (acknowledging 16999)
         (snd (SetShutterPosition true (mkEnv 7000 0 0 0 "E,3") s)))
  = true
  /\ fst (Busy 1000 Z.mul (fun d : Z => d) (acknowledging 17000)
            (snd (SetShutterPosition true (mkEnv 7000 0 0 0 "E,3") s)))
     = false.
Proof.
  intros s. split.
  - apply (@busy_window_starts_at_command Z 1000 Z.mul (fun d : Z => d) true
             (mkEnv 7000 0 0 0 "E,3") (acknowledging 16999) s).
    reflexivity.
  - apply (@busy_window_starts_at_command Z 1000 Z.mul (fun d : Z => d) true
             (mkEnv 7000 0 0 0 "E,3") (acknowledging 17000) s).
    reflexivity.
Defined.

Lemma Busy_stays_false_witness :
  let s := snd (SetProperty_Delay 10 (acknowledging 6500) open_controller) in
  fst (Busy 1000 Z.mul (fun d : Z => d) (acknowledging 20000) s) = false.
Proof.
  intros s.
  apply (@Busy_stays_false Z 1000 Z.mul (fun d : Z => d) (acknowledging 16000)
           (acknowledging 20000) s).
  - simpl. lia.
  - reflexivity.
Defined.


Lemma Initialize_sends_cached_state_witness :
  sent_commands (trace (snd (Initialize 0 (mkEnv 5000 0 0 0 "E,3") new_controller)))
  = ["LIGHT,0"]%list.
Proof.
  apply (@Initialize_sends_cached_state Z 0 (mkEnv 5000 0 0 0 "E,3") new_controller);
    reflexivity.
Defined.

Lemma Initialize_ignores_command_result_witness :
  fst (Initialize 0 (mkEnv 5000 1 0 0 "") new_controller) = DEVICE_OK
  /\ initialized_ (self (snd (Initialize 0 (mkEnv 5000 1 0 0 "") new_controller)))
     = true
  /\ changedTime_ (self (snd (Initialize 0 (mkEnv 5000 1 0 0 "") new_controller)))
     = 5000.
Proof.
  apply (@Initialize_ignores_command_result Z 0 (mkEnv 5000 1 0 0 "") new_controller);
    reflexivity.
Defined.

Lemma Initialize_properties_show_members_witness :
  let a' := self (snd (Initialize 0 (acknowledging 5000) new_controller)) in
  port_ a' = "Andor-AMH200-FOS"
  /\ intensity_ a' = 1
  /\ curState_ a' = false
  /\ delayMs_ a' = 0
  /\ prop_State a' = Some (mkIntegerProperty 0 None [0; 1])
  /\ prop_Intensity a' = Some (mkIntegerProperty 1 (Some (1, 100)) []).
Proof.
  apply (@Initialize_properties_show_members Z 0 (acknowledging 5000) new_controller);
    reflexivity.
Defined.

Lemma Initialize_twice_fails_witness :
  Initialize 0 (acknowledging 9000) ready_controller
  = (DEVICE_DUPLICATE_PROPERTY, ready_controller).
Proof.
  apply (@Initialize_twice_fails Z 0 (acknowledging 9000) ready_controller).
  vm_compute. discriminate.
Defined.

Lemma Shutdown_uninitialised_noop_witness :
  Shutdown (acknowledging 1) new_controller = (DEVICE_OK, new_controller).
Proof.
  apply (@Shutdown_uninitialised_noop Z (acknowledging 1) new_controller).
  reflexivity.
Defined.


Lemma Shutdown_failure_keeps_initialised_witness :
  fst (Shutdown (mkEnv 9000 0 0 0 "E,3") open_controller) = 10103
  /\ initialized_ (self (snd (Shutdown (mkEnv 9000 0 0 0 "E,3") open_controller)))
     = true.
Proof.
  apply (@Shutdown_failure_keeps_initialised Z (mkEnv 9000 0 0 0 "E,3")
           open_controller).
  - reflexivity.
  - vm_compute. discriminate.
Defined.

Lemma Shutdown_twice_witness :
  Shutdown (acknowledging 9500)
    (snd (Shutdown (acknowledging 9000) open_controller))
  = (DEVICE_OK, snd (Shutdown (acknowledging 9000) open_controller)).
Proof.
  apply (@Shutdown_twice Z (acknowledging 9000) (acknowledging 9500) open_controller).
  reflexivity.
Defined.
